(** * Live Transfers Exchange: wallet ledger, campaign lifecycle, call billing

    A shallow embedding of [main.py] and [schemas.py].

    Conventions of the embedding.
    - Every pydantic model of [schemas.py] is a record in a module of the
      same name; [Literal] string sets are enumerations.
    - Python [int] is [Z].  Python [float] is IEEE 754 binary64, taken
      from the standard library's executable specification
      ([SpecFloat], precision 53, maximal exponent 1024): sums and
      differences round to nearest, ties to even, and infinities, signed
      zeros and NaN are values like any other.  [round(x, 2)] is the
      double nearest to the decimal with two digits nearest to [x], ties
      to even, as CPython computes it.
    - A request handler is a computation in the monad [M]: it threads the
      database and either returns a value or raises an [Exception].  The
      database is kept when an exception is raised, so that writes made
      before a failure stay visible. *)

From Stdlib Require Import List String Ascii Bool ZArith NArith QArith Qround Lia Lqa.
From Stdlib Require Import SpecFloat.
Import ListNotations.

Local Open Scope string_scope.
Local Open Scope list_scope.

(** ** Identifiers *)

(** The [_id] of a document is a bson [ObjectId] of 12 bytes, a 96-bit
    value; its string form is 24 hexadecimal digits, in lower case. *)
Definition ObjectId := N.

Definition hex_value (c : ascii) : option N :=
  let n := N_of_ascii c in
  if (48 <=? n)%N && (n <=? 57)%N then Some (n - 48)%N
  else if (97 <=? n)%N && (n <=? 102)%N then Some (n - 87)%N
  else if (65 <=? n)%N && (n <=? 70)%N then Some (n - 55)%N
  else None.

(** ASCII white space, which [bytes.fromhex] skips between bytes. *)
Definition is_space (c : ascii) : bool :=
  let n := N_of_ascii c in
  (n =? 32)%N || ((9 <=? n)%N && (n <=? 13)%N).

(** [bytes.fromhex]: white space is skipped, then two hexadecimal digits
    make a byte.  The result is the number of bytes read and their value,
    most significant first. *)
Fixpoint fromhex (s : string) (count : nat) (acc : N) : option (nat * N) :=
  match s with
  | EmptyString => Some (count, acc)
  | String c s' =>
      if is_space c then fromhex s' count acc
      else
        match hex_value c, s' with
        | Some top, String c' s'' =>
            match hex_value c' with
            | Some bot => fromhex s'' (S count) (256 * acc + (16 * top + bot))%N
            | None => None
            end
        | _, _ => None
        end
  end.

Definition hex_char (d : N) : ascii :=
  ascii_of_N (if (d <? 10)%N then 48 + d else 87 + d)%N.

Fixpoint hex_string (digits : nat) (n : N) (acc : string) : string :=
  match digits with
  | O => acc
  | S k => hex_string k (n / 16)%N (String (hex_char (n mod 16)%N) acc)
  end.

(** [str(ObjectId)] *)
Definition str_oid (i : ObjectId) : string := hex_string 24 i "".

(** ** Floating point *)

Definition prec : Z := 53.
Definition emax : Z := 1024.

Definition float := spec_float.

Definition fadd (x y : float) : float := SFadd prec emax x y.
Definition fsub (x y : float) : float := SFsub prec emax x y.
Definition flt (x y : float) : bool := SFltb x y.
Definition fle (x y : float) : bool := SFleb x y.

(** [float(z)] for an integer [z]. *)
Definition of_int (z : Z) : float := binary_normalize prec emax z 0 false.

Definition f0 : float := S754_zero false.
Definition f35 : float := Eval vm_compute in of_int 35.
Definition f50 : float := Eval vm_compute in of_int 50.

Definition is_finite (x : float) : bool :=
  match x with
  | S754_zero _ | S754_finite _ _ _ => true
  | _ => false
  end.

(** The real number a finite float stands for (and 0 for the others). *)
Definition exact (x : float) : Q :=
  match x with
  | S754_finite s m e =>
      let v := if (0 <=? e)%Z then inject_Z (Zpos m * 2 ^ e)
               else Zpos m # Z.to_pos (2 ^ (- e)) in
      if s then (- v)%Q else v
  | _ => 0%Q
  end.

(** Rounding a rational to the nearest integer, ties to the even one. *)
Definition round_half_even (x : Q) : Z :=
  let f := Qfloor x in
  match (x - inject_Z f ?= 1 # 2)%Q with
  | Lt => f
  | Eq => if Z.even f then f else (f + 1)%Z
  | Gt => (f + 1)%Z
  end.

(** The double nearest to [num / den], ties to even; [szero] is the
    sign of the zero returned for [num = 0]. *)
Definition nearest (num : Z) (den : positive) (szero : bool) : float :=
  match num with
  | Z0 => S754_zero szero
  | Zpos n => SFdiv prec emax (S754_finite false n 0) (S754_finite false den 0)
  | Zneg n => SFdiv prec emax (S754_finite true n 0) (S754_finite false den 0)
  end.

(** The double nearest to the decimal with [ndigits] digits after the
    point that is nearest to the rational [q], ties to even. *)
Definition round_exact (q : Q) (ndigits : nat) : float :=
  let scale := (10 ^ Z.of_nat ndigits)%Z in
  nearest (round_half_even (q * inject_Z scale)) (Z.to_pos scale)
    (negb (Qle_bool 0 q)).

(** Python's [round(x, ndigits)] on a float: infinities, NaN and zeros
    round to themselves. *)
Definition round (x : float) (ndigits : nat) : float :=
  match x with
  | S754_finite _ _ _ => round_exact (exact x) ndigits
  | _ => x
  end.

(** ** Schemas ([schemas.py]) *)

Inductive Role := buyer | seller | admin.

Definition Role_eqb (a b : Role) : bool :=
  match a, b with
  | buyer, buyer | seller, seller | admin, admin => true
  | _, _ => false
  end.

Module User.
Record t := mk {
    name : string;
    email : string;
    role : Role;
    company : option string;
    phone : option string;
    is_active : bool }.
End User.

Inductive TxType := credit | debit.

Module WalletTransaction.
Record t := mk {
    user_id : string;
    type : TxType;
    amount : float;
    memo : option string;
    campaign_id : option string;
    call_id : option string }.

(** [amount: float = Field(..., gt=0)]: a value that compares [<= 0]
    is refused. *)
Definition valid (x : t) : bool := negb (fle (amount x) f0).
End WalletTransaction.

Inductive Vertical :=
  | Mortgage | Medicare | ACA_Health_Insurance | Final_Expense_Insurance
  | Debt | Solar | Business_Loans | Home_Services.

Definition Vertical_str (v : Vertical) : string :=
  match v with
  | Mortgage => "Mortgage"
  | Medicare => "Medicare"
  | ACA_Health_Insurance => "ACA Health Insurance"
  | Final_Expense_Insurance => "Final Expense Insurance"
  | Debt => "Debt"
  | Solar => "Solar"
  | Business_Loans => "Business Loans"
  | Home_Services => "Home Services"
  end.

Inductive CampaignStatus :=
  | draft | pending_acceptance | awaiting_admin | active | paused
  | depleted | archived.

Module Campaign.
Record t := mk {
    buyer_id : string;
    vertical : Vertical;
    price_per_call : float;
    daily_cap : Z;
    states : list string;
    time_start : string;
    time_end : string;
    transfer_number : option string;
    status : CampaignStatus }.

Definition set_status (st : CampaignStatus) (c : t) : t :=
    mk (buyer_id c) (vertical c) (price_per_call c) (daily_cap c) (states c)
       (time_start c) (time_end c) (transfer_number c) st.

Definition set_transfer_number (n : string) (c : t) : t :=
    mk (buyer_id c) (vertical c) (price_per_call c) (daily_cap c) (states c)
       (time_start c) (time_end c) (Some n) (status c).

(** [price_per_call: float = Field(..., ge=35)] and
    [daily_cap: int = Field(..., ge=1)]: a value that compares [<] the
    bound is refused. *)
Definition valid (c : t) : bool :=
  negb (flt (price_per_call c) f35) && (1 <=? daily_cap c)%Z.
End Campaign.

Inductive AcceptStatus := accepted | rejected.

Module SellerAcceptance.
Record t := mk {
    campaign_id : string;
    seller_id : string;
    status : AcceptStatus }.

Definition set_status (st : AcceptStatus) (a : t) : t :=
    mk (campaign_id a) (seller_id a) st.
End SellerAcceptance.

Module RoutingAssignment.
Record t := mk {
    campaign_id : string;
    seller_ids : list string;
    did_number : string }.
End RoutingAssignment.

Inductive Disposition := completed | no_answer | busy | failed | short.

Module CallRecord.
Record t := mk {
    campaign_id : string;
    buyer_id : string;
    seller_id : option string;
    did_number : option string;
    caller : option string;
    called : option string;
    duration_seconds : Z;
    billable_threshold : Z;
    billable : bool;
    recording_url : option string;
    disposition : Disposition }.
End CallRecord.

Module Notification.
Record t := mk {
    user_id : string;
    message : string;
    read : bool }.
End Notification.

(** ** The document store *)

(** A collection holds its documents in insertion order, each under the
    [_id] the store gave it. *)
Definition collection (D : Type) := list (ObjectId * D).

Record Database := mkDatabase {
  user_docs : collection User.t;
  wallettransaction_docs : collection WalletTransaction.t;
  campaign_docs : collection Campaign.t;
  selleracceptance_docs : collection SellerAcceptance.t;
  routingassignment_docs : collection RoutingAssignment.t;
  callrecord_docs : collection CallRecord.t;
  notification_docs : collection Notification.t;
  next_oid : ObjectId }.

Definition empty_db : Database := mkDatabase [] [] [] [] [] [] [] 0%N.

(** A handle on one collection of the database: [db["user"]] and so on. *)
Record Handle (D : Type) := mkHandle {
  docs : Database -> collection D;
  with_docs : collection D -> Database -> Database }.
Arguments docs {D} _ _.
Arguments with_docs {D} _ _ _.

Definition user : Handle User.t :=
  mkHandle _ user_docs
    (fun c db => mkDatabase c (wallettransaction_docs db) (campaign_docs db)
       (selleracceptance_docs db) (routingassignment_docs db)
       (callrecord_docs db) (notification_docs db) (next_oid db)).

Definition wallettransaction : Handle WalletTransaction.t :=
  mkHandle _ wallettransaction_docs
    (fun c db => mkDatabase (user_docs db) c (campaign_docs db)
       (selleracceptance_docs db) (routingassignment_docs db)
       (callrecord_docs db) (notification_docs db) (next_oid db)).

Definition campaign : Handle Campaign.t :=
  mkHandle _ campaign_docs
    (fun c db => mkDatabase (user_docs db) (wallettransaction_docs db) c
       (selleracceptance_docs db) (routingassignment_docs db)
       (callrecord_docs db) (notification_docs db) (next_oid db)).

Definition selleracceptance : Handle SellerAcceptance.t :=
  mkHandle _ selleracceptance_docs
    (fun c db => mkDatabase (user_docs db) (wallettransaction_docs db)
       (campaign_docs db) c (routingassignment_docs db)
       (callrecord_docs db) (notification_docs db) (next_oid db)).

Definition routingassignment : Handle RoutingAssignment.t :=
  mkHandle _ routingassignment_docs
    (fun c db => mkDatabase (user_docs db) (wallettransaction_docs db)
       (campaign_docs db) (selleracceptance_docs db) c
       (callrecord_docs db) (notification_docs db) (next_oid db)).

Definition callrecord : Handle CallRecord.t :=
  mkHandle _ callrecord_docs
    (fun c db => mkDatabase (user_docs db) (wallettransaction_docs db)
       (campaign_docs db) (selleracceptance_docs db)
       (routingassignment_docs db) c (notification_docs db) (next_oid db)).

Definition notification : Handle Notification.t :=
  mkHandle _ notification_docs
    (fun c db => mkDatabase (user_docs db) (wallettransaction_docs db)
       (campaign_docs db) (selleracceptance_docs db)
       (routingassignment_docs db) (callrecord_docs db) c (next_oid db)).

Definition bump_oid (db : Database) : Database :=
  mkDatabase (user_docs db) (wallettransaction_docs db) (campaign_docs db)
    (selleracceptance_docs db) (routingassignment_docs db)
    (callrecord_docs db) (notification_docs db) (N.succ (next_oid db)).

(** ** Exceptions and the handler monad *)

Inductive Exception :=
  | HTTPException (status_code : Z) (detail : string)
  | ValidationError (model : string)
  | RequestValidationError (model : string).

Definition M (A : Type) : Type := Database -> (Exception + A) * Database.

Definition ret {A} (a : A) : M A := fun db => (inr a, db).

Definition raise {A} (e : Exception) : M A := fun db => (inl e, db).

Definition bind {A B} (m : M A) (k : A -> M B) : M B :=
  fun db =>
    match m db with
    | (inr a, db') => k a db'
    | (inl e, db') => (inl e, db')
    end.

Notation "x <- m ;; k" := (bind m (fun x => k))
  (at level 61, m at next level, right associativity).
Notation "m ;;; k" := (bind m (fun _ => k))
  (at level 61, right associativity).

Fixpoint for_each {A} (xs : list A) (body : A -> M unit) : M unit :=
  match xs with
  | [] => ret tt
  | x :: xs' => body x ;;; for_each xs' body
  end.

(** Modelled from the spec: the document store of [database.py], which is
    not among the sources.  [insert(collection, doc) -> id] appends the
    document under a fresh [_id]; [find] returns the documents that match
    a filter, in insertion order; [find_one] the first of them;
    [update_one] patches the first of them.  Time stamps are left out. *)
Section Store.
Context {D : Type}.

Definition create_document (h : Handle D) (data : D) : M string :=
    fun db =>
      let i := next_oid db in
      (inr (str_oid i), bump_oid (with_docs h (docs h db ++ [(i, data)]) db)).

Definition find (h : Handle D) (q : ObjectId * D -> bool) : M (list (ObjectId * D)) :=
    fun db => (inr (filter q (docs h db)), db).

Definition find_one (h : Handle D) (q : ObjectId * D -> bool) : M (option (ObjectId * D)) :=
    fun db => (inr (List.find q (docs h db)), db).

Fixpoint patch_first (q : ObjectId * D -> bool) (patch : D -> D)
      (c : collection D) : collection D :=
    match c with
    | [] => []
    | d :: c' =>
        if q d then (fst d, patch (snd d)) :: c' else d :: patch_first q patch c'
    end.

Definition update_one (h : Handle D) (q : ObjectId * D -> bool) (patch : D -> D) : M unit :=
    fun db => (inr tt, with_docs h (patch_first q patch (docs h db)) db).
End Store.

(** The filter [{"_id": i}]. *)
Definition by_id {D} (i : ObjectId) : ObjectId * D -> bool :=
  fun d => (fst d =? i)%N.

(** The filter [{"_id": o}] for what [oid] returns: an [ObjectId] of
    fewer than 12 bytes is the [_id] of no document. *)
Definition by_oid {D} (o : option ObjectId) : ObjectId * D -> bool :=
  match o with
  | Some i => by_id i
  | None => fun _ => false
  end.

(** ** Helpers ([main.py]) *)

(** [ObjectId(id_str)] accepts a string of 24 characters that
    [bytes.fromhex] can read.  Without white space these are 12 bytes,
    [Some] id; with white space fewer, an id written [None], which is the
    [_id] of no document. *)
Definition oid (id_str : string) : M (option ObjectId) :=
  if (String.length id_str =? 24)%nat then
    match fromhex id_str 0 0 with
    | Some (12%nat, i) => ret (Some i)
    | Some _ => ret None
    | None => raise (HTTPException 400 "Invalid id")
    end
  else raise (HTTPException 400 "Invalid id").

Definition accumulate (balance : float) (t : ObjectId * WalletTransaction.t) : float :=
  match WalletTransaction.type (snd t) with
  | credit => fadd balance (WalletTransaction.amount (snd t))
  | debit => fsub balance (WalletTransaction.amount (snd t))
  end.

Definition get_balance (user_id : string) : M float :=
  txs <- find wallettransaction
           (fun t => WalletTransaction.user_id (snd t) =? user_id) ;;
  ret (round (fold_left accumulate txs f0) 2).

(** ** Users *)

Definition create_user (u : User.t) : M string :=
  existing <- find_one user (fun d => User.email (snd d) =? User.email u) ;;
  match existing with
  | Some _ => raise (HTTPException 400 "Email already registered")
  | None =>
      user_id <- create_document user u ;;
      create_document notification
        (Notification.mk user_id
           ("Welcome to Live Transfers Exchange, " ++ User.name u ++ "!")%string
           false) ;;;
      ret user_id
  end.

(** ** Wallet *)

Module TopUp.
Record t := mk {
    user_id : string;
    amount : float }.
End TopUp.

(** Building a [WalletTransaction] runs the validation of its schema. *)
Definition new_WalletTransaction (x : WalletTransaction.t) : M WalletTransaction.t :=
  if WalletTransaction.valid x then ret x
  else raise (ValidationError "WalletTransaction").

Definition wallet_topup (payload : TopUp.t) : M (string * float) :=
  if flt (TopUp.amount payload) f50 then
    raise (HTTPException 400 "Minimum top-up is $50")
  else
    i <- oid (TopUp.user_id payload) ;;
    u <- find_one user (by_oid i) ;;
    match u with
    | None => raise (HTTPException 404 "User not found")
    | Some _ =>
        tx <- new_WalletTransaction
                (WalletTransaction.mk (TopUp.user_id payload) credit
                   (TopUp.amount payload) (Some "Account funding") None None) ;;
        tx_id <- create_document wallettransaction tx ;;
        balance <- get_balance (TopUp.user_id payload) ;;
        ret (tx_id, balance)
    end.

Definition wallet_balance (user_id : string) : M (string * float) :=
  balance <- get_balance user_id ;;
  ret (user_id, balance).

(** ** Campaigns *)

Definition has_role (r : Role) (u : option (ObjectId * User.t)) : bool :=
  match u with
  | Some d => Role_eqb (User.role (snd d)) r
  | None => false
  end.

Definition create_campaign (c : Campaign.t) : M string :=
  i <- oid (Campaign.buyer_id c) ;;
  b <- find_one user (by_oid i) ;;
  if negb (has_role buyer b) then
    raise (HTTPException 400 "Invalid buyer")
  else if flt (Campaign.price_per_call c) f35 then
    raise (HTTPException 400 "Minimum price per call is $35")
  else
    camp_id <- create_document campaign c ;;
    sellers <- find user (fun d => Role_eqb (User.role (snd d)) seller) ;;
    for_each sellers (fun s =>
      create_document notification
        (Notification.mk (str_oid (fst s))
           ("New campaign available: " ++ Vertical_str (Campaign.vertical c))%string
           false) ;;;
      ret tt) ;;;
    ret camp_id.

Module AcceptPayload.
Record t := mk {
    seller_id : string;
    status : AcceptStatus }.
End AcceptPayload.

Definition accept_campaign (campaign_id : string) (payload : AcceptPayload.t) : M bool :=
  i <- oid campaign_id ;;
  camp <- find_one campaign (by_oid i) ;;
  match camp with
  | None => raise (HTTPException 404 "Campaign not found")
  | Some camp =>
      j <- oid (AcceptPayload.seller_id payload) ;;
      s <- find_one user (by_oid j) ;;
      if negb (has_role seller s) then
        raise (HTTPException 400 "Invalid seller")
      else
        existing <- find_one selleracceptance (fun d =>
          (SellerAcceptance.campaign_id (snd d) =? campaign_id)
          && (SellerAcceptance.seller_id (snd d) =? AcceptPayload.seller_id payload)) ;;
        match existing with
        | Some e =>
            update_one selleracceptance (by_id (fst e))
              (SellerAcceptance.set_status (AcceptPayload.status payload))
        | None =>
            create_document selleracceptance
              (SellerAcceptance.mk campaign_id (AcceptPayload.seller_id payload)
                 (AcceptPayload.status payload)) ;;;
            ret tt
        end ;;;
        create_document notification
          (Notification.mk (Campaign.buyer_id (snd camp))
             "A seller responded to your campaign." false) ;;;
        ret true
  end.

Module TransferNumberPayload.
Record t := mk { transfer_number : string }.
End TransferNumberPayload.

Definition set_transfer_number (campaign_id : string) (payload : TransferNumberPayload.t) : M bool :=
  i <- oid campaign_id ;;
  camp <- find_one campaign (by_oid i) ;;
  match camp with
  | None => raise (HTTPException 404 "Campaign not found")
  | Some camp =>
      update_one campaign (by_id (fst camp)) (fun c =>
        Campaign.set_status awaiting_admin
          (Campaign.set_transfer_number
             (TransferNumberPayload.transfer_number payload) c)) ;;;
      create_document notification
        (Notification.mk "admin"
           ("Campaign " ++ campaign_id ++ " ready for routing")%string false) ;;;
      ret true
  end.

Definition assign_routing (campaign_id : string) (routing : RoutingAssignment.t)
    : M (bool * CampaignStatus) :=
  i <- oid campaign_id ;;
  camp <- find_one campaign (by_oid i) ;;
  match camp with
  | None => raise (HTTPException 404 "Campaign not found")
  | Some camp =>
      existing <- find_one routingassignment (fun d =>
        RoutingAssignment.campaign_id (snd d) =? campaign_id) ;;
      match existing with
      | Some e => update_one routingassignment (by_id (fst e)) (fun _ => routing)
      | None => create_document routingassignment routing ;;; ret tt
      end ;;;
      let buyer_id := Campaign.buyer_id (snd camp) in
      bal <- get_balance buyer_id ;;
      let new_status := if fle f50 bal then active else depleted in
      update_one campaign (by_id (fst camp)) (Campaign.set_status new_status) ;;;
      create_document notification
        (Notification.mk buyer_id "Your campaign routing is configured." false) ;;;
      for_each (RoutingAssignment.seller_ids routing) (fun sid =>
        create_document notification
          (Notification.mk sid "You have been assigned to a campaign." false) ;;;
        ret tt) ;;;
      ret (true, new_status)
  end.

(** ** Calls and billing *)

Module CallLogPayload.
Record t := mk {
    campaign_id : string;
    seller_id : option string;
    did_number : option string;
    caller : option string;
    called : option string;
    duration_seconds : Z;
    recording_url : option string;
    threshold : Z }.
End CallLogPayload.

Definition is_billable (payload : CallLogPayload.t) : bool :=
  (Z.max 60 (CallLogPayload.threshold payload)
   <=? CallLogPayload.duration_seconds payload)%Z.

Definition call_disposition (payload : CallLogPayload.t) : Disposition :=
  if is_billable payload then completed
  else if (0 <? CallLogPayload.duration_seconds payload)%Z then short
  else failed.

Definition low_balance_message : string :=
  "Balance low: campaign paused. Please add funds.".

Definition log_call (payload : CallLogPayload.t) : M (string * bool) :=
  i <- oid (CallLogPayload.campaign_id payload) ;;
  camp <- find_one campaign (by_oid i) ;;
  match camp with
  | None => raise (HTTPException 404 "Campaign not found")
  | Some camp =>
      let buyer_id := Campaign.buyer_id (snd camp) in
      let billable := is_billable payload in
      let record :=
        CallRecord.mk (CallLogPayload.campaign_id payload) buyer_id
          (CallLogPayload.seller_id payload) (CallLogPayload.did_number payload)
          (CallLogPayload.caller payload) (CallLogPayload.called payload)
          (CallLogPayload.duration_seconds payload)
          (CallLogPayload.threshold payload) billable
          (CallLogPayload.recording_url payload) (call_disposition payload) in
      call_id <- create_document callrecord record ;;
      (if billable then
         let price := Campaign.price_per_call (snd camp) in
         tx <- new_WalletTransaction
                 (WalletTransaction.mk buyer_id debit price (Some "Billable call")
                    (Some (CallLogPayload.campaign_id payload)) (Some call_id)) ;;
         create_document wallettransaction tx ;;;
         bal <- get_balance buyer_id ;;
         if flt bal f50 then
           update_one campaign (by_id (fst camp)) (Campaign.set_status depleted) ;;;
           create_document notification
             (Notification.mk buyer_id low_balance_message false) ;;;
           ret tt
         else ret tt
       else ret tt) ;;;
      ret (call_id, billable)
  end.

(** ** Requests *)

Inductive Request :=
  | CreateUser (u : User.t)
  | WalletTopup (payload : TopUp.t)
  | CreateCampaign (c : Campaign.t)
  | AcceptCampaign (campaign_id : string) (payload : AcceptPayload.t)
  | SetTransferNumber (campaign_id : string) (payload : TransferNumberPayload.t)
  | AssignRouting (campaign_id : string) (routing : RoutingAssignment.t)
  | LogCall (payload : CallLogPayload.t).

(** Building a [Campaign] runs the validation of its schema; for a
    request body the failure is FastAPI's [RequestValidationError]
    (status 422), raised before the handler is called. *)
Definition new_Campaign (x : Campaign.t) : M Campaign.t :=
  if Campaign.valid x then ret x
  else raise (RequestValidationError "Campaign").

(** [POST /campaigns]: the body is validated, then handed to
    [create_campaign]. *)
Definition post_campaigns (body : Campaign.t) : M string :=
  c <- new_Campaign body ;;
  create_campaign c.

(** Serving a request: the handler's result is dropped, its exception and
    its effect on the database are kept. *)
Definition serve (r : Request) : M unit :=
  match r with
  | CreateUser u => create_user u ;;; ret tt
  | WalletTopup payload => wallet_topup payload ;;; ret tt
  | CreateCampaign c => post_campaigns c ;;; ret tt
  | AcceptCampaign campaign_id payload => accept_campaign campaign_id payload ;;; ret tt
  | SetTransferNumber campaign_id payload => set_transfer_number campaign_id payload ;;; ret tt
  | AssignRouting campaign_id routing => assign_routing campaign_id routing ;;; ret tt
  | LogCall payload => log_call payload ;;; ret tt
  end.

Definition serve_all (rs : list Request) (db : Database) : Database :=
  fold_left (fun db r => snd (serve r db)) rs db.

(** ** Observations used in the statements *)

(** The user's ledger: the entries [get_balance] reads, in order. *)
Definition ledger (user_id : string) (db : Database) : list WalletTransaction.t :=
  map snd (filter (fun t => WalletTransaction.user_id (snd t) =? user_id)
             (wallettransaction_docs db)).

Definition TxType_eqb (a b : TxType) : bool :=
  match a, b with
  | credit, credit | debit, debit => true
  | _, _ => false
  end.

(** The exact sum of the amounts of the entries of one kind. *)
Definition total (kind : TxType) (txs : list WalletTransaction.t) : Q :=
  fold_right Qplus 0%Q
    (map (fun t => exact (WalletTransaction.amount t))
       (filter (fun t => TxType_eqb (WalletTransaction.type t) kind) txs)).

(** The unrounded balance, as the specification words it: the sum of the
    credits less the sum of the debits, as real numbers. *)
Definition ledger_sum (user_id : string) (db : Database) : Q :=
  (total credit (ledger user_id db) - total debit (ledger user_id db))%Q.

(** What [get_balance] returns (it never raises). *)
Definition balance_of (user_id : string) (db : Database) : float :=
  match fst (get_balance user_id db) with
  | inr b => b
  | inl _ => f0
  end.

(** One entry applied to a running total, in double precision. *)
Definition apply_entry (acc : float) (t : WalletTransaction.t) : float :=
  match WalletTransaction.type t with
  | credit => fadd acc (WalletTransaction.amount t)
  | debit => fsub acc (WalletTransaction.amount t)
  end.

(** The running total of a ledger, newest entry first: nothing for the
    empty ledger, else the newest entry applied to the total of the
    older ones. *)
Fixpoint running_total_rev (newest_first : list WalletTransaction.t) : float :=
  match newest_first with
  | [] => f0
  | t :: older => apply_entry (running_total_rev older) t
  end.

(** The running total of a ledger given in the order of its entries. *)
Definition running_total (txs : list WalletTransaction.t) : float :=
  running_total_rev (rev txs).

(** No step of the running total rounds: every partial total is finite
    and is exactly the previous one plus or minus the entry's amount. *)
Fixpoint no_rounding_rev (newest_first : list WalletTransaction.t) : Prop :=
  match newest_first with
  | [] => True
  | t :: older =>
      no_rounding_rev older
      /\ is_finite (apply_entry (running_total_rev older) t) = true
      /\ (exact (apply_entry (running_total_rev older) t)
          == exact (running_total_rev older)
             + match WalletTransaction.type t with
               | credit => exact (WalletTransaction.amount t)
               | debit => - exact (WalletTransaction.amount t)
               end)%Q
  end.

Definition no_rounding (txs : list WalletTransaction.t) : Prop :=
  no_rounding_rev (rev txs).



(** The user document a string id resolves to. *)
Definition lookup_user (user_id : string) (db : Database) : option (ObjectId * User.t) :=
  match fst (oid user_id db) with
  | inr i => List.find (by_oid i) (user_docs db)
  | inl _ => None
  end.

(** The campaign document a string id resolves to. *)
Definition lookup_campaign (campaign_id : string) (db : Database)
    : option (ObjectId * Campaign.t) :=
  match fst (oid campaign_id db) with
  | inr i => List.find (by_oid i) (campaign_docs db)
  | inl _ => None
  end.

(** Every stored campaign satisfies the bound of its schema: its
    [price_per_call] is not below 35. *)
Definition wf_db (db : Database) : Prop :=
  Forall (fun d => flt (Campaign.price_per_call (snd d)) f35 = false)
    (campaign_docs db).

(** The record [log_call] stores and the debit it appends when billable. *)
Definition call_record (payload : CallLogPayload.t) (camp : ObjectId * Campaign.t)
    : CallRecord.t :=
  CallRecord.mk (CallLogPayload.campaign_id payload) (Campaign.buyer_id (snd camp))
    (CallLogPayload.seller_id payload) (CallLogPayload.did_number payload)
    (CallLogPayload.caller payload) (CallLogPayload.called payload)
    (CallLogPayload.duration_seconds payload) (CallLogPayload.threshold payload)
    (is_billable payload) (CallLogPayload.recording_url payload)
    (call_disposition payload).

Definition call_debit (payload : CallLogPayload.t) (camp : ObjectId * Campaign.t)
    (call_id : string) : WalletTransaction.t :=
  WalletTransaction.mk (Campaign.buyer_id (snd camp)) debit
    (Campaign.price_per_call (snd camp)) (Some "Billable call")
    (Some (CallLogPayload.campaign_id payload)) (Some call_id).

(** Sample data: a buyer without funds, a seller, and the buyer's
    campaign, still pending acceptance. *)
Definition ann : User.t := User.mk "Ann" "ann@example.com" buyer None None true.
Definition bob : User.t := User.mk "Bob" "bob@example.com" seller None None true.
Definition eve : User.t := User.mk "Eve" "eve@example.com" admin None None true.

Definition ann_id : string := "000000000000000000000000".
Definition bob_id : string := "000000000000000000000002".
Definition eve_id : string := "000000000000000000000004".
Definition solar_id : string := "000000000000000000000006".

Definition solar : Campaign.t :=
  Campaign.mk ann_id Solar f35 10 ["TX"; "CA"] "09:00" "17:00" None pending_acceptance.

Definition sample_db : Database :=
  serve_all [CreateUser ann; CreateUser bob; CreateUser eve; CreateCampaign solar]
    empty_db.

Definition long_call : CallLogPayload.t :=
  CallLogPayload.mk solar_id (Some bob_id) None None None 100 None 90.

Definition short_call : CallLogPayload.t :=
  CallLogPayload.mk solar_id (Some bob_id) None None None 45 None 30.

(** The reading of the lifecycle table under which only an [active]
    campaign is depleted by call billing: a call logged on a campaign in
    another state leaves all campaigns as they were. *)
Definition depletion_only_from_active : Prop :=
  forall (payload : CallLogPayload.t) (db : Database) (camp : ObjectId * Campaign.t),
    wf_db db ->
    lookup_campaign (CallLogPayload.campaign_id payload) db = Some camp ->
    Campaign.status (snd camp) <> active ->
    campaign_docs (snd (log_call payload db)) = campaign_docs db.

(** The credit [wallet_topup] appends. *)
Definition topup_credit (payload : TopUp.t) : WalletTransaction.t :=
  WalletTransaction.mk (TopUp.user_id payload) credit (TopUp.amount payload)
    (Some "Account funding") None None.

(** The reading of the top-up property in which the reported balance
    itself grows by the amount. *)
Definition topup_adds_amount_to_balance : Prop :=
  forall (payload : TopUp.t) (db : Database) (u : ObjectId * User.t),
    lookup_user (TopUp.user_id payload) db = Some u ->
    fle f50 (TopUp.amount payload) = true ->
    exact (balance_of (TopUp.user_id payload) (snd (wallet_topup payload db)))
    == exact (balance_of (TopUp.user_id payload) db) + exact (TopUp.amount payload).

(** The doubles 50.125 and 50.375 (both exact), 75, and the doubles
    nearest to 50.017, 50.022, 50.12 and 50.38. *)
Definition f50_125 : float := Eval vm_compute in binary_normalize prec emax 401 (-3) false.
Definition f75 : float := Eval vm_compute in of_int 75.
Definition f50_12 : float := S754_finite false 7053762916369039 (-47).

(** Top-ups of 50.125 and of 50.375 for the sample buyer: amounts half
    way between two cents. *)
Definition odd_topup : TopUp.t := TopUp.mk ann_id f50_125.





(** The database after the routing upsert of [assign_routing]. *)
Definition upsert_routing (campaign_id : string) (routing : RoutingAssignment.t)
    (db : Database) : Database :=
  match List.find (fun d => RoutingAssignment.campaign_id (snd d) =? campaign_id)
          (routingassignment_docs db) with
  | Some e =>
      with_docs routingassignment
        (patch_first (by_id (fst e)) (fun _ => routing) (routingassignment_docs db)) db
  | None =>
      bump_oid (with_docs routingassignment
                  (routingassignment_docs db ++ [(next_oid db, routing)]) db)
  end.

(** The notifications [assign_routing] sends. *)
Definition routing_notifications (buyer_id : string) (routing : RoutingAssignment.t)
    : list Notification.t :=
  Notification.mk buyer_id "Your campaign routing is configured." false
  :: map (fun sid => Notification.mk sid "You have been assigned to a campaign." false)
       (RoutingAssignment.seller_ids routing).

(** The database after the acceptance upsert of [accept_campaign]. *)
Definition upsert_acceptance (campaign_id : string) (payload : AcceptPayload.t)
    (db : Database) : Database :=
  match List.find (fun d =>
          (SellerAcceptance.campaign_id (snd d) =? campaign_id)
          && (SellerAcceptance.seller_id (snd d) =? AcceptPayload.seller_id payload))
          (selleracceptance_docs db) with
  | Some e =>
      with_docs selleracceptance
        (patch_first (by_id (fst e))
           (SellerAcceptance.set_status (AcceptPayload.status payload))
           (selleracceptance_docs db)) db
  | None =>
      bump_oid (with_docs selleracceptance
                  (selleracceptance_docs db
                   ++ [(next_oid db,
                        SellerAcceptance.mk campaign_id
                          (AcceptPayload.seller_id payload)
                          (AcceptPayload.status payload))]) db)
  end.

(** A routing for the sample campaign, and one whose body names another
    campaign than the request path does. *)
Definition solar_routing : RoutingAssignment.t :=
  RoutingAssignment.mk solar_id [bob_id] "+15550100".

Definition misfiled_routing : RoutingAssignment.t :=
  RoutingAssignment.mk "00000000000000000000000a" [bob_id] "+15550100".

(** A call logged on a campaign id that resolves to nothing. *)
Definition stray_call : CallLogPayload.t :=
  CallLogPayload.mk ann_id None None None None 120 None 90.

(** The keys under which acceptances and routings are meant to be
    unique. *)
Definition acceptance_keys (db : Database) : list (string * string) :=
  map (fun d => (SellerAcceptance.campaign_id (snd d),
                 SellerAcceptance.seller_id (snd d)))
    (selleracceptance_docs db).

Definition routing_keys (db : Database) : list string :=
  map (fun d => RoutingAssignment.campaign_id (snd d)) (routingassignment_docs db).

(** A request is consistent when the campaign id in a routing body is the
    one in the request path. *)
Definition consistent (r : Request) : Prop :=
  match r with
  | AssignRouting campaign_id routing =>
      RoutingAssignment.campaign_id routing = campaign_id
  | _ => True
  end.

(** Routing documents have distinct ids, all below the next fresh one. *)
Definition routing_ids_ok (db : Database) : Prop :=
  NoDup (map fst (routingassignment_docs db))
  /\ Forall (fun d => (fst d < next_oid db)%N) (routingassignment_docs db).

(** ** Serialization ([serialize] of [main.py])

    A document is a Python [dict]: its keys are distinct and it keeps the
    order of insertion.  Of a value [serialize] only asks whether it is an
    [ObjectId], whether it is truthy, and what [str] makes of it; values
    that are neither strings nor [ObjectId]s are therefore left abstract,
    with their [str] and their truth value as parameters. *)
Section Serialize.
Context {Any : Type}.
Variable py_str : Any -> string.
Variable py_bool : Any -> bool.

Inductive Value :=
  | VObjectId (i : ObjectId)
  | VStr (s : string)
  | VAny (a : Any).

Definition Doc := list (string * Value).

(** [d.get(k)] *)
Definition dict_get (k : string) (d : Doc) : option Value :=
  option_map snd (List.find (fun p => fst p =? k) d).

(** [d.pop(k)], for the document that is left *)
Fixpoint dict_pop (k : string) (d : Doc) : Doc :=
  match d with
  | [] => []
  | p :: d' => if fst p =? k then d' else p :: dict_pop k d'
  end.

(** [d[k] = v]: an existing key keeps its place, a new one goes last. *)
Fixpoint dict_set (k : string) (v : Value) (d : Doc) : Doc :=
  match d with
  | [] => [(k, v)]
  | p :: d' => if fst p =? k then (k, v) :: d' else p :: dict_set k v d'
  end.

Definition truthy (v : Value) : bool :=
  match v with
  | VObjectId _ => true
  | VStr s => negb (s =? "")
  | VAny a => py_bool a
  end.

Definition str (v : Value) : string :=
  match v with
  | VObjectId i => str_oid i
  | VStr s => s
  | VAny a => py_str a
  end.

Definition known_fields : list string :=
  ["buyer_id"; "seller_id"; "campaign_id"; "call_id"; "user_id"].

(** One round of the loop over the known fields. *)
Definition stringify_field (d : Doc) (k : string) : Doc :=
  match dict_get k d with
  | Some (VObjectId i) => dict_set k (VStr (str_oid i)) d
  | _ => d
  end.

(** The step [d["id"] = str(d.pop("_id"))], taken when [d.get("_id")]
    is truthy. *)
Definition rename_id (d : Doc) : Doc :=
  match dict_get "_id" d with
  | Some v =>
      if truthy v then dict_set "id" (VStr (str v)) (dict_pop "_id" d) else d
  | None => d
  end.

Definition serialize (doc : Doc) : Doc :=
  match doc with
  | [] => doc
  | _ => fold_left stringify_field known_fields (rename_id doc)
  end.

(** The keys of a document. *)
Definition keys (d : Doc) : list string := map fst d.

(** Whether a looked-up value is an [ObjectId], and the value with an
    [ObjectId] replaced by its string form. *)
Definition is_oid (o : option Value) : bool :=
  match o with
  | Some (VObjectId _) => true
  | _ => false
  end.

Definition stringified (o : option Value) : option Value :=
  match o with
  | Some (VObjectId i) => Some (VStr (str_oid i))
  | _ => o
  end.

End Serialize.

Arguments Value : clear implicits.
Arguments Doc : clear implicits.

(** A sample document, with integers for the values that are neither
    strings nor ids. *)
Definition sample_doc : Doc Z :=
  [("_id", VObjectId 6%N); ("buyer_id", VStr ann_id); ("daily_cap", VAny 10%Z)].

Definition Z_str (z : Z) : string := if (z =? 10)%Z then "10" else "?".
Definition Z_bool (z : Z) : bool := negb (z =? 0)%Z.

(** ** Observations for the further properties *)

(** The documents of a collection have distinct ids, all below [n]. *)
Definition coll_ok {D} (n : N) (c : collection D) : Prop :=
  NoDup (map fst c) /\ Forall (fun d => (fst d < n)%N) c.

(** Every collection has distinct ids, all below the next fresh one. *)
Definition ids_ok (db : Database) : Prop :=
  coll_ok (next_oid db) (user_docs db)
  /\ coll_ok (next_oid db) (wallettransaction_docs db)
  /\ coll_ok (next_oid db) (campaign_docs db)
  /\ coll_ok (next_oid db) (selleracceptance_docs db)
  /\ coll_ok (next_oid db) (routingassignment_docs db)
  /\ coll_ok (next_oid db) (callrecord_docs db)
  /\ coll_ok (next_oid db) (notification_docs db).

(** The number of distinct 96-bit ids. *)
Definition oid_bound : N := (16 ^ 24)%N.

(** The e-mail addresses registered so far. *)
Definition emails (db : Database) : list string :=
  map (fun d => User.email (snd d)) (user_docs db).

(** The filter of [accept_campaign] and the stored acceptance of a seller
    for a campaign. *)
Definition acceptance_filter (campaign_id seller_id : string)
    : ObjectId * SellerAcceptance.t -> bool :=
  fun d => (SellerAcceptance.campaign_id (snd d) =? campaign_id)
           && (SellerAcceptance.seller_id (snd d) =? seller_id).

Definition lookup_acceptance (campaign_id seller_id : string) (db : Database)
    : option (ObjectId * SellerAcceptance.t) :=
  List.find (acceptance_filter campaign_id seller_id) (selleracceptance_docs db).

(** The routing [get_campaign] would show for a campaign id. *)
Definition lookup_routing (campaign_id : string) (db : Database)
    : option (ObjectId * RoutingAssignment.t) :=
  List.find (fun d => RoutingAssignment.campaign_id (snd d) =? campaign_id)
    (routingassignment_docs db).

(** A ledger entry as the handlers write them: the amount of a credit
    is not below 50 and that of a debit not below 35. *)
Definition entry_ok (t : ObjectId * WalletTransaction.t) : Prop :=
  match WalletTransaction.type (snd t) with
  | credit => flt (WalletTransaction.amount (snd t)) f50 = false
  | debit => flt (WalletTransaction.amount (snd t)) f35 = false
  end.

(** The statuses the handlers write into an existing campaign. *)
Definition written_status (st : CampaignStatus) : Prop :=
  st = awaiting_admin \/ st = active \/ st = depleted.

(** A campaign document before and after a request: same id, same terms
    (buyer, vertical, price, cap, states, hours); the status is kept or
    is one the handlers write; the transfer number is kept or set. *)
Definition evolves (old new : ObjectId * Campaign.t) : Prop :=
  fst new = fst old
  /\ Campaign.buyer_id (snd new) = Campaign.buyer_id (snd old)
  /\ Campaign.vertical (snd new) = Campaign.vertical (snd old)
  /\ Campaign.price_per_call (snd new) = Campaign.price_per_call (snd old)
  /\ Campaign.daily_cap (snd new) = Campaign.daily_cap (snd old)
  /\ Campaign.states (snd new) = Campaign.states (snd old)
  /\ Campaign.time_start (snd new) = Campaign.time_start (snd old)
  /\ Campaign.time_end (snd new) = Campaign.time_end (snd old)
  /\ (Campaign.status (snd new) = Campaign.status (snd old)
      \/ written_status (Campaign.status (snd new)))
  /\ (Campaign.transfer_number (snd new) = Campaign.transfer_number (snd old)
      \/ exists n, Campaign.transfer_number (snd new) = Some n).

(** Requests that may write the ledger. *)
Definition writes_ledger (r : Request) : bool :=
  match r with
  | WalletTopup _ | LogCall _ => true
  | _ => false
  end.

(** Requests that may add a user, and requests that may add a call
    record. *)
Definition writes_users (r : Request) : bool :=
  match r with
  | CreateUser _ => true
  | _ => false
  end.

Definition writes_calls (r : Request) : bool :=
  match r with
  | LogCall _ => true
  | _ => false
  end.

(** What [oid] makes of a string: it only parses its argument. *)
Definition oid_result (id_str : string) : Exception + option ObjectId :=
  fst (oid id_str empty_db).

(** Documents numbered with consecutive fresh ids. *)
Fixpoint number_from {D} (i : ObjectId) (ds : list D) : collection D :=
  match ds with
  | [] => []
  | d :: ds' => (i, d) :: number_from (N.succ i) ds'
  end.

Arguments str_oid : simpl never.
Arguments round : simpl never.
Arguments round_exact : simpl never.
Arguments exact : simpl never.
Arguments fadd : simpl never.
Arguments fsub : simpl never.
Arguments flt : simpl never.
Arguments fle : simpl never.
Arguments oid_result : simpl never.
Arguments Qle_bool : simpl never.
Arguments String.eqb : simpl never.

(** * Properties *)

(** ** Arithmetic of the ledger *)

Lemma round_half_even_comp (x y : Q) :
  x == y -> round_half_even x = round_half_even y.
Proof.
  intros H. unfold round_half_even.
  assert (F : Qfloor x = Qfloor y) by (now apply Qfloor_comp).
  assert (C : (x - inject_Z (Qfloor x) ?= 1 # 2)%Q = (y - inject_Z (Qfloor y) ?= 1 # 2)%Q).
  { rewrite F. apply Qcompare_comp; [now rewrite H | reflexivity]. }
  cbv zeta. rewrite C, F. reflexivity.
Qed.

Lemma Qle_bool_comp (x y : Q) : x == y -> Qle_bool 0 x = Qle_bool 0 y.
Proof.
  intros H. destruct (Qle_bool 0 y) eqn:E.
  - apply Qle_bool_iff. apply Qle_bool_iff in E. now rewrite H.
  - destruct (Qle_bool 0 x) eqn:F; [| reflexivity].
    apply Qle_bool_iff in F. rewrite H in F. apply Qle_bool_iff in F. congruence.
Qed.

Lemma round_exact_comp (x y : Q) (n : nat) :
  x == y -> round_exact x n = round_exact y n.
Proof.
  intros H. unfold round_exact. cbv zeta.
  rewrite (Qle_bool_comp x y H). f_equal.
  apply round_half_even_comp. now rewrite H.
Qed.

Lemma total_cons (kind : TxType) (t : WalletTransaction.t) txs :
  total kind (t :: txs)
  = if TxType_eqb (WalletTransaction.type t) kind
    then (exact (WalletTransaction.amount t) + total kind txs)%Q else total kind txs.
Proof. unfold total. simpl. now destruct (TxType_eqb _ _). Qed.

Lemma total_app (kind : TxType) txs txs' :
  total kind (txs ++ txs') == total kind txs + total kind txs'.
Proof.
  induction txs as [|t txs IH]; simpl.
  - unfold total at 2. simpl. lra.
  - rewrite !total_cons. destruct (TxType_eqb _ _); rewrite IH; lra.
Qed.

Lemma total_rev (kind : TxType) txs : total kind (rev txs) == total kind txs.
Proof.
  induction txs as [|t txs IH]; simpl; [reflexivity |].
  rewrite total_app, IH, !total_cons.
  destruct (TxType_eqb _ _); unfold total; simpl; lra.
Qed.

Lemma running_total_snoc (txs : list WalletTransaction.t) (t : WalletTransaction.t) :
  running_total (txs ++ [t]) = apply_entry (running_total txs) t.
Proof. unfold running_total. now rewrite rev_unit. Qed.

(** The loop of [get_balance] computes the running total. *)
Lemma fold_accumulate (txs : collection WalletTransaction.t) :
  fold_left accumulate txs f0 = running_total (map snd txs).
Proof.
  induction txs as [|t txs IH] using rev_ind; [reflexivity |].
  rewrite fold_left_app, map_app. simpl. rewrite running_total_snoc, IH.
  reflexivity.
Qed.

Lemma get_balance_eq (user_id : string) (db : Database) :
  get_balance user_id db = (inr (round (running_total (ledger user_id db)) 2), db).
Proof.
  unfold ledger. rewrite <- fold_accumulate. reflexivity.
Qed.

Lemma balance_of_eq (user_id : string) (db : Database) :
  balance_of user_id db = round (running_total (ledger user_id db)) 2.
Proof. unfold balance_of. now rewrite get_balance_eq. Qed.

Lemma get_balance_balance_of (user_id : string) (db : Database) :
  get_balance user_id db = (inr (balance_of user_id db), db).
Proof. rewrite balance_of_eq. apply get_balance_eq. Qed.

(** When no step rounds, the running total is the exact sum. *)
Lemma no_rounding_rev_exact (newest_first : list WalletTransaction.t) :
  no_rounding_rev newest_first ->
  is_finite (running_total_rev newest_first) = true
  /\ exact (running_total_rev newest_first)
     == total credit newest_first - total debit newest_first.
Proof.
  induction newest_first as [|t l IH]; simpl.
  - intros _. split; [reflexivity |]. unfold total. simpl. reflexivity.
  - intros (N & F & E). destruct (IH N) as [_ S]. split; [exact F |].
    rewrite E, S, !total_cons.
    destruct (WalletTransaction.type t); simpl; lra.
Qed.

Lemma no_rounding_exact (txs : list WalletTransaction.t) :
  no_rounding txs ->
  is_finite (running_total txs) = true
  /\ exact (running_total txs) == total credit txs - total debit txs.
Proof.
  intros N. destruct (no_rounding_rev_exact _ N) as [F E].
  split; [exact F |]. unfold running_total. rewrite E, !total_rev. reflexivity.
Qed.

(** Without rounding in the loop the balance is the rounding of the
    exact sum, or the zero that the running total is. *)
Lemma balance_exact (user_id : string) (db : Database) :
  no_rounding (ledger user_id db) ->
  match running_total (ledger user_id db) with
  | S754_zero s => balance_of user_id db = S754_zero s
  | _ => balance_of user_id db = round_exact (ledger_sum user_id db) 2
  end.
Proof.
  intros N. destruct (no_rounding_exact _ N) as [F E].
  rewrite balance_of_eq. unfold ledger_sum.
  destruct (running_total (ledger user_id db)) as [s|s| |s m e] eqn:T;
    try discriminate F; [reflexivity |].
  unfold round. apply round_exact_comp. exact E.
Qed.

(** ** Comparisons of floats *)

Lemma SFcompare_antisym (x y : float) :
  SFcompare y x = option_map CompOpp (SFcompare x y).
Proof.
  destruct x as [sx|sx| |sx mx ex], y as [sy|sy| |sy my ey]; simpl;
    try reflexivity;
    try (destruct sx; reflexivity); try (destruct sy; reflexivity);
    try (destruct sx, sy; reflexivity).
  destruct sx, sy; try reflexivity;
    rewrite (Z.compare_antisym ex ey);
    destruct (ex ?= ey)%Z; simpl; try reflexivity;
    rewrite (Pos.compare_cont_antisym mx my Eq); simpl;
    now rewrite ?CompOpp_involutive.
Qed.

(** [x >= y] excludes [x < y]. *)
Lemma fle_not_flt (x y : float) : fle y x = true -> flt x y = false.
Proof.
  unfold fle, flt, SFleb, SFltb. rewrite (SFcompare_antisym y x).
  destruct (SFcompare y x) as [[]|]; simpl; congruence.
Qed.

(** A float that is not below a positive number is not at most zero. *)
Lemma not_below_positive (x : float) (m : positive) (e : Z) :
  flt x (S754_finite false m e) = false -> fle x f0 = false.
Proof.
  destruct x as [s|s| |s mx ex]; try reflexivity.
  - destruct s; discriminate.
  - destruct s; [discriminate | reflexivity].
  - destruct s; [discriminate | reflexivity].
Qed.

(** ** Reasoning about handlers *)

Lemma oid_eq (id_str : string) (db : Database) :
  oid id_str db = (oid_result id_str, db).
Proof.
  unfold oid_result, oid.
  destruct (String.length id_str =? 24)%nat; [| reflexivity].
  destruct (fromhex id_str 0 0) as [[n i]|]; [| reflexivity].
  do 13 (destruct n as [|n]; [reflexivity |]). reflexivity.
Qed.

Lemma oid_raises (id_str : string) (e : Exception) :
  oid_result id_str = inl e -> e = HTTPException 400 "Invalid id".
Proof.
  unfold oid_result, oid.
  destruct (String.length id_str =? 24)%nat; [| simpl; congruence].
  destruct (fromhex id_str 0 0) as [[n i]|]; [| simpl; congruence].
  do 13 (destruct n as [|n]; [simpl; congruence |]). simpl; congruence.
Qed.

Lemma map_snd_number_from {D} (ds : list D) (i : ObjectId) :
  map snd (number_from i ds) = ds.
Proof. revert i. induction ds; intros i; simpl; [|rewrite IHds]; reflexivity. Qed.

Lemma for_each_notify {A} (f : A -> Notification.t) (xs : list A) (db : Database) :
  for_each xs (fun x => create_document notification (f x) ;;; ret tt) db
  = (inr tt,
     mkDatabase (user_docs db) (wallettransaction_docs db) (campaign_docs db)
       (selleracceptance_docs db) (routingassignment_docs db) (callrecord_docs db)
       (notification_docs db ++ number_from (next_oid db) (map f xs))
       (next_oid db + N.of_nat (List.length xs))%N).
Proof.
  revert db. induction xs as [|x xs IH]; intros db.
  - simpl. unfold ret. destruct db; simpl. now rewrite app_nil_r, N.add_0_r.
  - cbn [for_each]. unfold bind at 1. unfold bind at 1.
    unfold create_document at 1, ret at 1. rewrite IH. simpl.
    rewrite <- app_assoc. simpl. do 2 f_equal. lia.
Qed.


Lemma ledger_app (user_id : string) (db : Database) (txs : collection WalletTransaction.t) :
  ledger user_id (with_docs wallettransaction (wallettransaction_docs db ++ txs) db)
  = ledger user_id db
    ++ filter (fun t => WalletTransaction.user_id t =? user_id) (map snd txs).
Proof.
  unfold ledger. simpl. rewrite filter_app, map_app. f_equal.
  induction txs as [|t txs IH]; simpl; [reflexivity|].
  destruct (WalletTransaction.user_id (snd t) =? user_id); simpl; now rewrite IH.
Qed.



(** ** The ledger *)



(** ** Call billing *)

Lemma find_none_false {D} (c : list D) : List.find (fun _ => false) c = None.
Proof. induction c; simpl; auto. Qed.

Lemma lookup_campaign_eq (campaign_id : string) (db : Database) camp :
  lookup_campaign campaign_id db = Some camp ->
  exists i, oid_result campaign_id = inr (Some i)
            /\ List.find (by_id i) (campaign_docs db) = Some camp.
Proof.
  unfold lookup_campaign. rewrite oid_eq. cbn [fst].
  destruct (oid_result campaign_id) as [e|[i|]]; [discriminate | eauto |].
  simpl. rewrite find_none_false. discriminate.
Qed.

Lemma lookup_campaign_none (campaign_id : string) (db : Database) :
  lookup_campaign campaign_id db = None ->
  (exists e, oid_result campaign_id = inl e)
  \/ (exists i, oid_result campaign_id = inr i
                /\ List.find (by_oid i) (campaign_docs db) = None).
Proof.
  unfold lookup_campaign. rewrite oid_eq. cbn [fst].
  destruct (oid_result campaign_id) as [e|i]; eauto.
Qed.

Lemma log_call_found (payload : CallLogPayload.t) (db : Database) camp :
  lookup_campaign (CallLogPayload.campaign_id payload) db = Some camp ->
  let buyer_id := Campaign.buyer_id (snd camp) in
  let call_oid := next_oid db in
  let db1 := bump_oid (with_docs callrecord
               (callrecord_docs db ++ [(call_oid, call_record payload camp)]) db) in
  let tx := call_debit payload camp (str_oid call_oid) in
  let db2 := bump_oid (with_docs wallettransaction
               (wallettransaction_docs db ++ [(N.succ call_oid, tx)]) db1) in
  log_call payload db
  = if is_billable payload then
      if WalletTransaction.valid tx then
        if flt (balance_of buyer_id db2) f50 then
          (inr (str_oid call_oid, true),
           bump_oid (with_docs notification
             (notification_docs db
              ++ [(N.succ (N.succ call_oid),
                   Notification.mk buyer_id low_balance_message false)])
             (with_docs campaign
                (patch_first (by_id (fst camp)) (Campaign.set_status depleted)
                   (campaign_docs db)) db2)))
        else (inr (str_oid call_oid, true), db2)
      else (inl (ValidationError "WalletTransaction"), db1)
    else (inr (str_oid call_oid, false), db1).
Proof.
  intros H. apply lookup_campaign_eq in H. destruct H as (i & Hi & Hf).
  cbv zeta. unfold call_debit, call_record.
  unfold log_call. unfold bind at 1. rewrite oid_eq, Hi.
  unfold bind at 1. unfold find_one at 1. cbn [docs campaign by_oid]. rewrite Hf.
  unfold bind at 1. unfold bind at 1. unfold create_document at 1.
  destruct (is_billable payload); [| reflexivity].
  unfold bind at 1. unfold bind at 1. unfold new_WalletTransaction.
  match goal with
  | |- context [WalletTransaction.valid ?t] =>
      destruct (WalletTransaction.valid t)
  end; [| reflexivity].
  unfold ret at 1. unfold bind at 1. unfold bind at 1.
  unfold create_document at 1. unfold bind at 1.
  rewrite get_balance_balance_of.
  match goal with
  | |- _ = (if ?c then _ else _) =>
      destruct c eqn:E;
      match goal with
      | |- context [flt ?b f50] => change (flt b f50) with c; rewrite E
      end
  end; reflexivity.
Qed.

Lemma find_by_id {D} (i : ObjectId) (c : collection D) d :
  List.find (by_id i) c = Some d -> fst d = i /\ In d c.
Proof.
  intros H. apply find_some in H. destruct H as [I E].
  unfold by_id in E. apply N.eqb_eq in E. auto.
Qed.

Lemma find_patch_first {D} (i : ObjectId) (patch : D -> D) (c : collection D) d :
  List.find (by_id i) c = Some d ->
  List.find (by_id i) (patch_first (by_id (fst d)) patch c)
  = Some (fst d, patch (snd d)).
Proof.
  intros H. destruct (find_by_id _ _ _ H) as [E _]. rewrite E.
  induction c as [|a c IH]; simpl in *; [discriminate|].
  destruct (by_id i a) eqn:B.
  - injection H as ->. simpl. unfold by_id at 1. simpl.
    unfold by_id in B. now rewrite B, E.
  - simpl. rewrite B. auto.
Qed.

Lemma wf_db_price (campaign_id : string) (db : Database) camp :
  wf_db db -> lookup_campaign campaign_id db = Some camp ->
  flt (Campaign.price_per_call (snd camp)) f35 = false.
Proof.
  intros W H. apply lookup_campaign_eq in H. destruct H as (i & _ & F).
  apply find_by_id in F. destruct F as [_ I].
  unfold wf_db in W. rewrite Forall_forall in W. exact (W _ I).
Qed.

Lemma call_debit_valid (payload : CallLogPayload.t) (db : Database) camp call_id :
  wf_db db ->
  lookup_campaign (CallLogPayload.campaign_id payload) db = Some camp ->
  WalletTransaction.valid (call_debit payload camp call_id) = true.
Proof.
  intros W H. pose proof (wf_db_price _ _ _ W H) as P.
  unfold WalletTransaction.valid, call_debit. simpl.
  apply negb_true_iff. exact (not_below_positive _ _ _ P).
Qed.

Lemma lookup_campaign_patched (campaign_id : string) (db db' : Database) camp patch :
  lookup_campaign campaign_id db = Some camp ->
  campaign_docs db' = patch_first (by_id (fst camp)) patch (campaign_docs db) ->
  lookup_campaign campaign_id db' = Some (fst camp, patch (snd camp)).
Proof.
  intros H E. apply lookup_campaign_eq in H. destruct H as (i & Hi & F).
  unfold lookup_campaign. rewrite oid_eq, Hi. cbn [fst by_oid]. rewrite E.
  now apply find_patch_first.
Qed.


(** C3. The stored call record and the returned flag are billable exactly
    when [duration_seconds >= max(60, threshold)]; with a threshold below
    60 that is exactly when [duration_seconds >= 60]. *)
Theorem log_call_billable_iff (payload : CallLogPayload.t)
    (db : Database) (camp : ObjectId * Campaign.t) :
  lookup_campaign (CallLogPayload.campaign_id payload) db = Some camp ->
  exists record,
    callrecord_docs (snd (log_call payload db))
    = callrecord_docs db ++ [(next_oid db, record)]
    /\ (CallRecord.billable record = true
        <-> (CallLogPayload.duration_seconds payload
             >= Z.max 60 (CallLogPayload.threshold payload))%Z)
    /\ (forall r, fst (log_call payload db) = inr r
                  -> snd r = CallRecord.billable record)
    /\ ((CallLogPayload.threshold payload < 60)%Z ->
        (CallRecord.billable record = true
         <-> (CallLogPayload.duration_seconds payload >= 60)%Z)).
Proof.
  intros H. exists (call_record payload camp).
  pose proof (log_call_found payload db camp H) as E. cbv zeta in E.
  assert (I : CallRecord.billable (call_record payload camp) = true
              <-> (CallLogPayload.duration_seconds payload
                   >= Z.max 60 (CallLogPayload.threshold payload))%Z).
  { simpl. unfold is_billable. rewrite Z.leb_le. lia. }
  repeat split.
  - rewrite E.
    destruct (is_billable payload); [| reflexivity].
    destruct (WalletTransaction.valid _); [| reflexivity].
    destruct (flt _ f50); reflexivity.
  - apply I.
  - apply I.
  - intros r R. rewrite E in R. simpl.
    destruct (is_billable payload); [| now inversion R].
    destruct (WalletTransaction.valid _); [| discriminate].
    destruct (flt _ f50); now inversion R.
  - intros B. apply I in B. lia.
  - intros B. apply I. lia.
Qed.

(** C4. The call record stored for an existing campaign has disposition
    [completed] when the call is billable, else [short] when
    [duration_seconds > 0], else [failed]. *)
Theorem log_call_disposition (payload : CallLogPayload.t)
    (db : Database) (camp : ObjectId * Campaign.t) :
  lookup_campaign (CallLogPayload.campaign_id payload) db = Some camp ->
  exists record,
    callrecord_docs (snd (log_call payload db))
    = callrecord_docs db ++ [(next_oid db, record)]
    /\ (CallRecord.billable record = true ->
        CallRecord.disposition record = completed)
    /\ (CallRecord.billable record = false ->
        (CallLogPayload.duration_seconds payload > 0)%Z ->
        CallRecord.disposition record = short)
    /\ (CallRecord.billable record = false ->
        (CallLogPayload.duration_seconds payload <= 0)%Z ->
        CallRecord.disposition record = failed).
Proof.
  intros H. exists (call_record payload camp).
  pose proof (log_call_found payload db camp H) as E. cbv zeta in E.
  split; [| simpl; unfold call_disposition; repeat split].
  - rewrite E.
    destruct (is_billable payload); [| reflexivity].
    destruct (WalletTransaction.valid _); [| reflexivity].
    destruct (flt _ f50); reflexivity.
  - intros ->. reflexivity.
  - intros -> D. destruct (0 <? _)%Z eqn:P; [reflexivity|].
    apply Z.ltb_ge in P. lia.
  - intros -> D. destruct (0 <? _)%Z eqn:P; [|reflexivity].
    apply Z.ltb_lt in P. lia.
Qed.

Lemma log_call_missing (payload : CallLogPayload.t) (db : Database) :
  lookup_campaign (CallLogPayload.campaign_id payload) db = None ->
  exists e, log_call payload db = (inl e, db).
Proof.
  intros H. apply lookup_campaign_none in H.
  unfold log_call. unfold bind at 1. rewrite oid_eq.
  destruct H as [[e He] | (i & Hi & F)].
  - rewrite He. eauto.
  - rewrite Hi. unfold bind at 1. unfold find_one at 1.
    cbn [docs campaign]. rewrite F. unfold raise. eauto.
Qed.

Lemma sample_db_wf : wf_db sample_db.
Proof.
  unfold wf_db. change (campaign_docs sample_db) with [(6%N, solar)].
  constructor; [reflexivity | constructor].
Qed.

Lemma sample_db_solar : lookup_campaign solar_id sample_db = Some (6%N, solar).
Proof. vm_compute. reflexivity. Qed.


Lemma log_call_billable_iff_witness :
  exists record,
    callrecord_docs (snd (log_call short_call sample_db)) = [(8%N, record)]
    /\ CallRecord.billable record = false.
Proof.
  destruct (log_call_billable_iff short_call sample_db (6%N, solar) sample_db_solar)
    as (record & S & _ & _ & F).
  exists record. split; [exact S |].
  destruct (CallRecord.billable record); [| reflexivity].
  assert (T : (30 < 60)%Z) by reflexivity.
  apply F in T. exfalso. apply (proj1 T eq_refl). reflexivity.
Defined.

Lemma log_call_disposition_witness :
  exists record,
    callrecord_docs (snd (log_call short_call sample_db)) = [(8%N, record)]
    /\ (CallRecord.billable record = false -> CallRecord.disposition record = short).
Proof.
  destruct (log_call_disposition short_call sample_db (6%N, solar) sample_db_solar)
    as (record & S & _ & D & _).
  exists record. split; [exact S |].
  intros B. apply (D B). reflexivity.
Defined.

(** C5, as the lifecycle table states it, fails: a billable call on a
    campaign that is still [pending_acceptance], for a buyer without
    funds, sets the campaign to [depleted]. *)
Lemma depletion_not_only_from_active : ~ depletion_only_from_active.
Proof.
  intros P.
  specialize (P long_call sample_db (6%N, solar) sample_db_wf sample_db_solar).
  assert (S : Campaign.status (snd (6%N, solar)) <> active) by discriminate.
  specialize (P S). vm_compute in P. discriminate P.
Qed.

(** C5, amended.  [log_call] has no guard on the campaign's status: when
    a billable call leaves the buyer's balance below 50 the campaign
    keeps its id and all its fields except its status, which becomes
    [depleted] whatever it was, and no other campaign document changes;
    when the call is not billable or the balance does not compare below
    50, and when the campaign does not exist, [log_call] leaves every
    campaign as it was. *)
Theorem log_call_depletes_from_any_status (payload : CallLogPayload.t)
    (db : Database) :
  wf_db db ->
  let db' := snd (log_call payload db) in
  match lookup_campaign (CallLogPayload.campaign_id payload) db with
  | Some camp =>
      let low := is_billable payload = true
                 /\ flt (balance_of (Campaign.buyer_id (snd camp)) db') f50 = true in
      (low ->
         campaign_docs db'
         = patch_first (by_id (fst camp))
             (fun c =>
                Campaign.mk (Campaign.buyer_id c) (Campaign.vertical c)
                  (Campaign.price_per_call c) (Campaign.daily_cap c)
                  (Campaign.states c) (Campaign.time_start c)
                  (Campaign.time_end c) (Campaign.transfer_number c) depleted)
             (campaign_docs db)
         /\ lookup_campaign (CallLogPayload.campaign_id payload) db'
            = Some (fst camp,
                    Campaign.mk (Campaign.buyer_id (snd camp))
                      (Campaign.vertical (snd camp))
                      (Campaign.price_per_call (snd camp))
                      (Campaign.daily_cap (snd camp))
                      (Campaign.states (snd camp))
                      (Campaign.time_start (snd camp))
                      (Campaign.time_end (snd camp))
                      (Campaign.transfer_number (snd camp))
                      depleted))
      /\ (~ low -> campaign_docs db' = campaign_docs db)
  | None => db' = db
  end.
Proof.
  intros W db'.
  destruct (lookup_campaign _ db) as [camp|] eqn:H.
  - pose proof (log_call_found payload db camp H) as E. cbv zeta in E.
    rewrite (call_debit_valid payload db camp _ W H) in E.
    intros low. subst low db'.
    destruct (is_billable payload).
    + match type of E with
      | _ = (if flt ?b f50 then _ else _) => destruct (flt b f50) eqn:L
      end; rewrite E; cbn [fst snd].
      * split.
        -- intros _. split; [reflexivity |].
           apply (lookup_campaign_patched _ db _ camp (Campaign.set_status depleted) H).
           reflexivity.
        -- intros N. exfalso. apply N. split; [reflexivity |]. exact L.
      * split.
        -- intros [_ G]. exfalso. exact (diff_false_true (eq_trans (eq_sym L) G)).
        -- intros _. reflexivity.
    + rewrite E. cbn [fst snd]. split.
      * intros [B _]. discriminate B.
      * intros _. reflexivity.
  - destruct (log_call_missing payload db H) as [e E]. subst db'.
    now rewrite E.
Qed.

Lemma log_call_depletes_from_any_status_witness :
  Campaign.status solar = pending_acceptance
  /\ lookup_campaign solar_id (snd (log_call long_call sample_db))
     = Some (6%N, Campaign.mk ann_id Solar f35 10 ["TX"; "CA"] "09:00" "17:00"
                    None depleted).
Proof.
  split; [reflexivity |].
  pose proof (log_call_depletes_from_any_status long_call sample_db sample_db_wf) as T.
  cbv zeta in T.
  change (lookup_campaign (CallLogPayload.campaign_id long_call) sample_db)
    with (lookup_campaign solar_id sample_db) in T.
  rewrite sample_db_solar in T. destruct T as [T _].
  apply T. split; [reflexivity |]. vm_compute. reflexivity.
Defined.
(** ** Wallet top-up *)

Lemma lookup_user_eq (user_id : string) (db : Database) u :
  lookup_user user_id db = Some u ->
  exists i, oid_result user_id = inr (Some i)
            /\ List.find (by_id i) (user_docs db) = Some u.
Proof.
  unfold lookup_user. rewrite oid_eq. cbn [fst].
  destruct (oid_result user_id) as [e|[i|]]; [discriminate | eauto |].
  simpl. rewrite find_none_false. discriminate.
Qed.

Lemma lookup_user_none (user_id : string) (db : Database) :
  lookup_user user_id db = None ->
  (exists e, oid_result user_id = inl e)
  \/ (exists i, oid_result user_id = inr i
                /\ List.find (by_oid i) (user_docs db) = None).
Proof.
  unfold lookup_user. rewrite oid_eq. cbn [fst].
  destruct (oid_result user_id) as [e|i]; eauto.
Qed.

Lemma wallet_topup_rejected (payload : TopUp.t) (db : Database) :
  flt (TopUp.amount payload) f50 = true ->
  wallet_topup payload db = (inl (HTTPException 400 "Minimum top-up is $50"), db).
Proof.
  intros L. unfold wallet_topup. now rewrite L.
Qed.

Lemma wallet_topup_unknown (payload : TopUp.t) (db : Database) :
  lookup_user (TopUp.user_id payload) db = None ->
  exists e, wallet_topup payload db = (inl e, db).
Proof.
  intros H. unfold wallet_topup.
  destruct (flt _ f50); [unfold raise; eauto |].
  apply lookup_user_none in H. unfold bind at 1. rewrite oid_eq.
  destruct H as [[e He] | (i & Hi & F)].
  - rewrite He. eauto.
  - rewrite Hi. unfold bind at 1. unfold find_one at 1.
    cbn [docs user]. rewrite F. unfold raise. eauto.
Qed.

Lemma wallet_topup_found (payload : TopUp.t) (db : Database) u :
  flt (TopUp.amount payload) f50 = false ->
  lookup_user (TopUp.user_id payload) db = Some u ->
  let db' := bump_oid (with_docs wallettransaction
               (wallettransaction_docs db ++ [(next_oid db, topup_credit payload)])
               db) in
  wallet_topup payload db
  = (inr (str_oid (next_oid db), balance_of (TopUp.user_id payload) db'), db').
Proof.
  intros A H. apply lookup_user_eq in H. destruct H as (i & Hi & F).
  cbv zeta. unfold wallet_topup.
  rewrite A.
  unfold bind at 1. rewrite oid_eq, Hi.
  unfold bind at 1. unfold find_one at 1. cbn [docs user by_oid]. rewrite F.
  unfold bind at 1. unfold new_WalletTransaction.
  fold (topup_credit payload).
  assert (V : WalletTransaction.valid (topup_credit payload) = true).
  { unfold WalletTransaction.valid, topup_credit. simpl.
    apply negb_true_iff. exact (not_below_positive _ _ _ A). }
  rewrite V. unfold ret at 1. unfold bind at 1. unfold create_document at 1.
  unfold bind at 1. rewrite get_balance_balance_of. reflexivity.
Qed.

Lemma ledger_other (user_id other : string) (db : Database) (i : ObjectId) tx :
  WalletTransaction.user_id tx = user_id -> other <> user_id ->
  ledger other (with_docs wallettransaction (wallettransaction_docs db ++ [(i, tx)]) db)
  = ledger other db.
Proof.
  intros E N. rewrite ledger_app. simpl. rewrite E.
  apply String.eqb_neq in N. rewrite String.eqb_sym in N. rewrite N.
  now rewrite app_nil_r.
Qed.

Lemma ledger_own (user_id : string) (db : Database) (i : ObjectId) tx :
  WalletTransaction.user_id tx = user_id ->
  ledger user_id (with_docs wallettransaction (wallettransaction_docs db ++ [(i, tx)]) db)
  = ledger user_id db ++ [tx].
Proof.
  intros E. rewrite ledger_app. simpl. now rewrite E, String.eqb_refl.
Qed.

Lemma ledger_snoc_own (user_id : string) (db db' : Database) (i : ObjectId) tx :
  wallettransaction_docs db' = wallettransaction_docs db ++ [(i, tx)] ->
  WalletTransaction.user_id tx = user_id ->
  ledger user_id db' = ledger user_id db ++ [tx].
Proof.
  intros E U. unfold ledger. rewrite E, filter_app, map_app. simpl.
  now rewrite U, String.eqb_refl.
Qed.

Lemma ledger_sum_snoc (user_id : string) (db db' : Database) (i : ObjectId) tx :
  wallettransaction_docs db' = wallettransaction_docs db ++ [(i, tx)] ->
  WalletTransaction.user_id tx = user_id ->
  ledger_sum user_id db'
  == ledger_sum user_id db
     + match WalletTransaction.type tx with
       | credit => exact (WalletTransaction.amount tx)
       | debit => - exact (WalletTransaction.amount tx)
       end.
Proof.
  intros E U.
  unfold ledger_sum. rewrite (ledger_snoc_own user_id db db' i tx E U).
  rewrite !total_app, !total_cons.
  assert (Z0 : forall k, total k [] = 0) by reflexivity. rewrite !Z0.
  destruct (WalletTransaction.type tx); simpl; ring.
Qed.

Lemma ledger_snoc_other (user_id other : string) (db db' : Database) (i : ObjectId) tx :
  wallettransaction_docs db' = wallettransaction_docs db ++ [(i, tx)] ->
  WalletTransaction.user_id tx = user_id -> other <> user_id ->
  ledger other db' = ledger other db.
Proof.
  intros E U N. unfold ledger. rewrite E, filter_app, map_app. simpl.
  rewrite U. apply String.eqb_neq in N. rewrite String.eqb_sym in N. rewrite N.
  simpl. apply app_nil_r.
Qed.

Lemma sample_db_ann : lookup_user ann_id sample_db = Some (0%N, ann).
Proof. vm_compute. reflexivity. Qed.

Lemma sample_db_eve : lookup_user eve_id sample_db = Some (4%N, eve).
Proof. vm_compute. reflexivity. Qed.

(** C9, as stated, fails: the reported balance is rounded to two
    digits, so a top-up of 50.125 into an empty wallet raises it from 0.0
    to 50.12. *)
Lemma topup_does_not_add_amount_to_balance : ~ topup_adds_amount_to_balance.
Proof.
  intros P.
  assert (A : fle f50 (TopUp.amount odd_topup) = true) by reflexivity.
  specialize (P odd_topup sample_db (0%N, ann) sample_db_ann A).
  vm_compute in P. discriminate P.
Qed.

Lemma no_rounding_snoc (txs : list WalletTransaction.t) (t : WalletTransaction.t) :
  no_rounding (txs ++ [t]) ->
  WalletTransaction.type t = credit ->
  exact (running_total (txs ++ [t]))
  == exact (running_total txs) + exact (WalletTransaction.amount t).
Proof.
  unfold no_rounding, running_total. rewrite rev_unit. simpl.
  intros (_ & _ & E) C. rewrite C in E. exact E.
Qed.

(** C9, amended.  A top-up whose amount compares below 50 is rejected
    with a validation error and changes nothing.  A top-up of at least 50
    for an existing user succeeds and appends one credit entry of exactly
    that amount to the user's ledger, so that the running total of the
    ledger becomes the previous one plus the amount, in double precision;
    the balance reported is the new running total rounded to two digits.
    When no step of the total rounds, the new total is exactly the
    previous one plus the amount, and the balance is the two-digit
    rounding of the exact sum of the previous ledger plus the amount (or
    the zero that the total is).  The ledger and the balance of every
    other user are unchanged. *)
Theorem wallet_topup_credits_user (payload : TopUp.t) (db : Database) :
  let user_id := TopUp.user_id payload in
  let amount := TopUp.amount payload in
  let db' := snd (wallet_topup payload db) in
  (flt amount f50 = true ->
     wallet_topup payload db
     = (inl (HTTPException 400 "Minimum top-up is $50"), db))
  /\ (fle f50 amount = true ->
      forall u, lookup_user user_id db = Some u ->
        fst (wallet_topup payload db)
        = inr (str_oid (next_oid db), balance_of user_id db')
        /\ wallettransaction_docs db'
           = wallettransaction_docs db
             ++ [(next_oid db,
                  WalletTransaction.mk user_id credit amount
                    (Some "Account funding") None None)]
        /\ ledger user_id db'
           = ledger user_id db
             ++ [WalletTransaction.mk user_id credit amount
                   (Some "Account funding") None None]
        /\ running_total (ledger user_id db')
           = fadd (running_total (ledger user_id db)) amount
        /\ balance_of user_id db'
           = round (fadd (running_total (ledger user_id db)) amount) 2
        /\ (no_rounding (ledger user_id db') ->
            exact (running_total (ledger user_id db'))
            == exact (running_total (ledger user_id db)) + exact amount
            /\ match running_total (ledger user_id db') with
               | S754_zero s => balance_of user_id db' = S754_zero s
               | _ =>
                   balance_of user_id db'
                   = round_exact (ledger_sum user_id db + exact amount) 2
               end)
        /\ (forall other, other <> user_id ->
              ledger other db' = ledger other db
              /\ balance_of other db' = balance_of other db)).
Proof.
  intros user_id amount db'. split; [apply wallet_topup_rejected |].
  intros A u H. apply fle_not_flt in A.
  pose proof (wallet_topup_found payload db u A H) as E.
  cbv zeta in E. subst db'. rewrite E. cbn [fst snd].
  set (db1 := bump_oid _) in *.
  assert (L : ledger user_id db1 = ledger user_id db ++ [topup_credit payload]).
  { apply (ledger_own user_id db (next_oid db) (topup_credit payload)).
    reflexivity. }
  assert (T : running_total (ledger user_id db1)
              = fadd (running_total (ledger user_id db)) amount).
  { rewrite L, running_total_snoc. reflexivity. }
  split; [reflexivity | split; [reflexivity | split; [exact L | split; [exact T |]]]].
  split; [| split].
  - rewrite balance_of_eq, T. reflexivity.
  - intros N. split.
    + rewrite L in N |- *.
      apply (no_rounding_snoc _ (topup_credit payload) N). reflexivity.
    + pose proof (balance_exact user_id db1 N) as B.
      assert (S : ledger_sum user_id db1 == ledger_sum user_id db + exact amount).
      { apply (ledger_sum_snoc user_id db db1 (next_oid db) (topup_credit payload));
          reflexivity. }
      destruct (running_total (ledger user_id db1)); try exact B;
        rewrite B; apply round_exact_comp; exact S.
  - intros other N.
    assert (O : ledger other db1 = ledger other db).
    { apply (ledger_other user_id other db (next_oid db) (topup_credit payload));
        [reflexivity | exact N]. }
    split; [exact O |]. now rewrite !balance_of_eq, O.
Qed.

Lemma wallet_topup_credits_user_witness :
  balance_of ann_id sample_db = f0
  /\ balance_of ann_id (snd (wallet_topup odd_topup sample_db)) = f50_12.
Proof.
  split; [reflexivity |].
  destruct (wallet_topup_credits_user odd_topup sample_db) as [_ T].
  assert (A : fle f50 (TopUp.amount odd_topup) = true) by reflexivity.
  destruct (T A (0%N, ann) sample_db_ann) as (_ & _ & _ & _ & B & _).
  exact (eq_trans B eq_refl).
Defined.

(** C10.  [wallet_topup] never looks at the user's role: a top-up of at
    least 50 succeeds exactly when the id resolves to a user document,
    whatever the role in it, and then credits that user's ledger. *)
Theorem wallet_topup_any_role (payload : TopUp.t) (db : Database) :
  fle f50 (TopUp.amount payload) = true ->
  let user_id := TopUp.user_id payload in
  let db' := snd (wallet_topup payload db) in
  ((exists r, fst (wallet_topup payload db) = inr r)
   <-> (exists u, lookup_user user_id db = Some u))
  /\ (forall (r : Role) u,
        lookup_user user_id db = Some u -> User.role (snd u) = r ->
        fst (wallet_topup payload db)
        = inr (str_oid (next_oid db), balance_of user_id db')
        /\ ledger user_id db'
           = ledger user_id db
             ++ [WalletTransaction.mk user_id credit (TopUp.amount payload)
                   (Some "Account funding") None None]).
Proof.
  intros A user_id db'. apply fle_not_flt in A.
  assert (S : forall u, lookup_user user_id db = Some u ->
            fst (wallet_topup payload db)
            = inr (str_oid (next_oid db), balance_of user_id db')
            /\ ledger user_id db'
               = ledger user_id db ++ [topup_credit payload]).
  { intros u H. pose proof (wallet_topup_found payload db u A H) as E.
    cbv zeta in E. subst db'. rewrite E. cbn [fst snd]. split; [reflexivity |].
    apply (ledger_own user_id db (next_oid db) (topup_credit payload)).
    reflexivity. }
  split; [split |].
  - intros [r R]. destruct (lookup_user user_id db) as [u|] eqn:H; [eauto |].
    destruct (wallet_topup_unknown payload db H) as [e E].
    rewrite E in R. discriminate R.
  - intros [u H]. destruct (S u H) as [R _]. eauto.
  - intros r u H _. exact (S u H).
Qed.

Lemma wallet_topup_any_role_witness :
  User.role eve = admin
  /\ ledger eve_id (snd (wallet_topup (TopUp.mk eve_id f75) sample_db))
     = [WalletTransaction.mk eve_id credit f75 (Some "Account funding") None None].
Proof.
  split; [reflexivity |].
  assert (A : fle f50 (TopUp.amount (TopUp.mk eve_id f75)) = true) by reflexivity.
  destruct (wallet_topup_any_role (TopUp.mk eve_id f75) sample_db A) as [_ T].
  destruct (T admin (4%N, eve) sample_db_eve eq_refl) as [_ L].
  exact L.
Defined.

(** ** Routing assignment *)

Lemma assign_routing_found (campaign_id : string) (routing : RoutingAssignment.t)
    (db : Database) camp :
  lookup_campaign campaign_id db = Some camp ->
  let buyer_id := Campaign.buyer_id (snd camp) in
  let new_status := if fle f50 (balance_of buyer_id db) then active else depleted in
  let db1 := upsert_routing campaign_id routing db in
  assign_routing campaign_id routing db
  = (inr (true, new_status),
     mkDatabase (user_docs db) (wallettransaction_docs db)
       (patch_first (by_id (fst camp)) (Campaign.set_status new_status)
          (campaign_docs db))
       (selleracceptance_docs db) (routingassignment_docs db1) (callrecord_docs db)
       (notification_docs db
        ++ number_from (next_oid db1) (routing_notifications buyer_id routing))
       (N.succ (next_oid db1)
        + N.of_nat (List.length (RoutingAssignment.seller_ids routing)))%N).
Proof.
  intros H. apply lookup_campaign_eq in H. destruct H as (i & Hi & F).
  cbv zeta. unfold assign_routing, upsert_routing.
  unfold bind at 1. rewrite oid_eq, Hi.
  unfold bind at 1. unfold find_one at 1. cbn [docs campaign by_oid]. rewrite F.
  unfold bind at 1. unfold find_one at 1. cbn [docs routingassignment].
  rewrite balance_of_eq.
  destruct (List.find _ (routingassignment_docs db)) as [e|].
  - unfold bind at 1. unfold update_one at 1.
    unfold bind at 1. rewrite get_balance_eq.
    unfold bind at 1. unfold update_one at 1.
    unfold bind at 1. unfold create_document at 1.
    unfold bind at 1. rewrite for_each_notify. unfold ret.
    simpl. rewrite <- app_assoc. reflexivity.
  - unfold bind at 1. unfold bind at 1. unfold create_document at 1. unfold ret at 1.
    unfold bind at 1. rewrite get_balance_eq.
    unfold bind at 1. unfold update_one at 1.
    unfold bind at 1. unfold create_document at 1.
    unfold bind at 1. rewrite for_each_notify. unfold ret.
    simpl. rewrite <- app_assoc. reflexivity.
Qed.

Lemma map_snd_app_numbered {D} (c : collection D) (i : ObjectId) (ds : list D) :
  map snd (c ++ number_from i ds) = map snd c ++ ds.
Proof. now rewrite map_app, map_snd_number_from. Qed.


Lemma assign_routing_missing (campaign_id : string) (routing : RoutingAssignment.t)
    (db : Database) :
  lookup_campaign campaign_id db = None ->
  exists e, assign_routing campaign_id routing db = (inl e, db).
Proof.
  intros H. apply lookup_campaign_none in H.
  unfold assign_routing. unfold bind at 1. rewrite oid_eq.
  destruct H as [[e He] | (i & Hi & F)].
  - rewrite He. eauto.
  - rewrite Hi. unfold bind at 1. unfold find_one at 1.
    cbn [docs campaign]. rewrite F. unfold raise. eauto.
Qed.


(** ** The handlers as case analyses *)

Lemma create_user_eq (u : User.t) (db : Database) :
  create_user u db
  = match List.find (fun d => User.email (snd d) =? User.email u) (user_docs db) with
    | Some _ => (inl (HTTPException 400 "Email already registered"), db)
    | None =>
        (inr (str_oid (next_oid db)),
         mkDatabase (user_docs db ++ [(next_oid db, u)]) (wallettransaction_docs db)
           (campaign_docs db) (selleracceptance_docs db)
           (routingassignment_docs db) (callrecord_docs db)
           (notification_docs db
            ++ [(N.succ (next_oid db),
                 Notification.mk (str_oid (next_oid db))
                   ("Welcome to Live Transfers Exchange, " ++ User.name u ++ "!")%string
                   false)])
           (N.succ (N.succ (next_oid db))))
    end.
Proof.
  unfold create_user. unfold bind at 1. unfold find_one at 1. cbn [docs user].
  destruct (List.find _ (user_docs db)); reflexivity.
Qed.

Lemma create_campaign_eq (c : Campaign.t) (db : Database) :
  create_campaign c db
  = match oid_result (Campaign.buyer_id c) with
    | inl e => (inl e, db)
    | inr i =>
        if negb (has_role buyer (List.find (by_oid i) (user_docs db))) then
          (inl (HTTPException 400 "Invalid buyer"), db)
        else if flt (Campaign.price_per_call c) f35 then
          (inl (HTTPException 400 "Minimum price per call is $35"), db)
        else
          let sellers :=
            filter (fun d => Role_eqb (User.role (snd d)) seller) (user_docs db) in
          (inr (str_oid (next_oid db)),
           mkDatabase (user_docs db) (wallettransaction_docs db)
             (campaign_docs db ++ [(next_oid db, c)]) (selleracceptance_docs db)
             (routingassignment_docs db) (callrecord_docs db)
             (notification_docs db
              ++ number_from (N.succ (next_oid db))
                   (map (fun s : ObjectId * User.t =>
                           Notification.mk (str_oid (fst s))
                             ("New campaign available: "
                              ++ Vertical_str (Campaign.vertical c))%string false)
                      sellers))
             (N.succ (next_oid db) + N.of_nat (List.length sellers))%N)
    end.
Proof.
  unfold create_campaign. unfold bind at 1. rewrite oid_eq.
  destruct (oid_result _) as [e|i]; [reflexivity |].
  unfold bind at 1. unfold find_one at 1. cbn [docs user].
  destruct (negb _); [reflexivity |].
  destruct (flt _ f35); [reflexivity |].
  unfold bind at 1. unfold create_document at 1.
  unfold bind at 1. unfold find at 1.
  unfold bind at 1. rewrite for_each_notify. reflexivity.
Qed.

Lemma accept_campaign_eq (campaign_id : string) (payload : AcceptPayload.t)
    (db : Database) :
  accept_campaign campaign_id payload db
  = match oid_result campaign_id with
    | inl e => (inl e, db)
    | inr i =>
        match List.find (by_oid i) (campaign_docs db) with
        | None => (inl (HTTPException 404 "Campaign not found"), db)
        | Some camp =>
            match oid_result (AcceptPayload.seller_id payload) with
            | inl e => (inl e, db)
            | inr j =>
                if negb (has_role seller (List.find (by_oid j) (user_docs db))) then
                  (inl (HTTPException 400 "Invalid seller"), db)
                else
                  let db1 := upsert_acceptance campaign_id payload db in
                  (inr true,
                   bump_oid (with_docs notification
                     (notification_docs db1
                      ++ [(next_oid db1,
                           Notification.mk (Campaign.buyer_id (snd camp))
                             "A seller responded to your campaign." false)]) db1))
            end
        end
    end.
Proof.
  unfold accept_campaign, upsert_acceptance. unfold bind at 1. rewrite oid_eq.
  destruct (oid_result campaign_id) as [e|i]; [reflexivity |].
  unfold bind at 1. unfold find_one at 1. cbn [docs campaign].
  destruct (List.find _ (campaign_docs db)) as [camp|]; [| reflexivity].
  unfold bind at 1. rewrite oid_eq.
  destruct (oid_result (AcceptPayload.seller_id payload)) as [e|j]; [reflexivity |].
  unfold bind at 1. unfold find_one at 1. cbn [docs user].
  destruct (negb _); [reflexivity |].
  unfold bind at 1. unfold find_one at 1. cbn [docs selleracceptance].
  destruct (List.find _ (selleracceptance_docs db)); reflexivity.
Qed.

Lemma set_transfer_number_eq (campaign_id : string)
    (payload : TransferNumberPayload.t) (db : Database) :
  set_transfer_number campaign_id payload db
  = match oid_result campaign_id with
    | inl e => (inl e, db)
    | inr i =>
        match List.find (by_oid i) (campaign_docs db) with
        | None => (inl (HTTPException 404 "Campaign not found"), db)
        | Some camp =>
            (inr true,
             mkDatabase (user_docs db) (wallettransaction_docs db)
               (patch_first (by_id (fst camp))
                  (fun c => Campaign.set_status awaiting_admin
                     (Campaign.set_transfer_number
                        (TransferNumberPayload.transfer_number payload) c))
                  (campaign_docs db))
               (selleracceptance_docs db) (routingassignment_docs db)
               (callrecord_docs db)
               (notification_docs db
                ++ [(next_oid db,
                     Notification.mk "admin"
                       ("Campaign " ++ campaign_id ++ " ready for routing")%string
                       false)])
               (N.succ (next_oid db)))
        end
    end.
Proof.
  unfold set_transfer_number. unfold bind at 1. rewrite oid_eq.
  destruct (oid_result campaign_id) as [e|i]; [reflexivity |].
  unfold bind at 1. unfold find_one at 1. cbn [docs campaign].
  destruct (List.find _ (campaign_docs db)) as [camp|]; reflexivity.
Qed.


Lemma post_campaigns_eq (c : Campaign.t) (db : Database) :
  post_campaigns c db
  = if Campaign.valid c then create_campaign c db
    else (inl (RequestValidationError "Campaign"), db).
Proof.
  unfold post_campaigns, new_Campaign. unfold bind at 1.
  destruct (Campaign.valid c); reflexivity.
Qed.

(** A body that passes the validation of its schema passes the price
    guard of the handler. *)
Lemma valid_price (c : Campaign.t) :
  Campaign.valid c = true -> flt (Campaign.price_per_call c) f35 = false.
Proof.
  unfold Campaign.valid. intros V. apply andb_prop in V. destruct V as [V _].
  now apply negb_true_iff in V.
Qed.

(** ** Failures and the store *)

Lemma Forall_patch_first {D} (P : ObjectId * D -> Prop) q (patch : D -> D)
    (c : collection D) :
  (forall d, P d -> P (fst d, patch (snd d))) ->
  Forall P c -> Forall P (patch_first q patch c).
Proof.
  intros K F. induction F as [|d c Pd F IH]; simpl; [constructor |].
  destruct (q d); constructor; auto.
Qed.

(** The price bound of the schema holds in every database the handlers
    can build. *)
Lemma wf_db_serve (r : Request) (db : Database) :
  wf_db db -> wf_db (snd (serve r db)).
Proof.
  intros W. unfold wf_db in *.
  destruct r as [u | payload | c | cid payload | cid payload | cid routing | payload];
    unfold serve, bind.
  - rewrite create_user_eq. destruct (List.find _ _); exact W.
  - destruct (flt (TopUp.amount payload) f50) eqn:G.
    + now rewrite wallet_topup_rejected.
    + destruct (lookup_user (TopUp.user_id payload) db) as [u|] eqn:H.
      * rewrite (wallet_topup_found payload db u G H). exact W.
      * destruct (wallet_topup_unknown payload db H) as [e ->]. exact W.
  - rewrite post_campaigns_eq. destruct (Campaign.valid c); [| exact W].
    rewrite create_campaign_eq.
    destruct (oid_result _); [exact W |].
    destruct (negb _); [exact W |].
    destruct (flt _ f35) eqn:L; [exact W |].
    cbn [fst snd campaign_docs].
    apply Forall_app. split; [exact W | constructor; [exact L | constructor]].
  - rewrite accept_campaign_eq.
    destruct (oid_result cid); [exact W |].
    destruct (List.find _ (campaign_docs db)); [| exact W].
    destruct (oid_result _); [exact W |].
    destruct (negb _); [exact W |].
    cbv zeta. unfold upsert_acceptance.
    destruct (List.find _ (selleracceptance_docs db)); exact W.
  - rewrite set_transfer_number_eq.
    destruct (oid_result cid); [exact W |].
    destruct (List.find _ (campaign_docs db)); [| exact W].
    cbn [fst snd campaign_docs]. apply Forall_patch_first; [| exact W].
    intros d P. exact P.
  - destruct (lookup_campaign cid db) as [camp|] eqn:H.
    + rewrite (assign_routing_found cid routing db camp H).
      cbn [fst snd campaign_docs]. apply Forall_patch_first; [| exact W].
      intros d P. exact P.
    + destruct (assign_routing_missing cid routing db H) as [e ->]. exact W.
  - destruct (lookup_campaign (CallLogPayload.campaign_id payload) db)
      as [camp|] eqn:H.
    + rewrite (log_call_found payload db camp H).
      destruct (is_billable payload); [| exact W].
      destruct (WalletTransaction.valid _); [| exact W].
      destruct (flt _ f50); [| exact W].
      cbn [fst snd campaign_docs]. apply Forall_patch_first; [| exact W].
      intros d P. exact P.
    + destruct (log_call_missing payload db H) as [e ->]. exact W.
Qed.

Lemma wf_db_serve_all (rs : list Request) (db : Database) :
  wf_db db -> wf_db (serve_all rs db).
Proof.
  revert db. induction rs as [|r rs IH]; intros db W; simpl; [exact W |].
  apply IH. now apply wf_db_serve.
Qed.

Lemma wf_db_reachable (rs : list Request) : wf_db (serve_all rs empty_db).
Proof. apply wf_db_serve_all. constructor. Qed.

(** C8.  A request that ends in an exception has written nothing: the
    database after it is the database before it.  This covers every
    handler and every exception (a guard of the handler, an id that does
    not parse, a body refused by its schema), on every database that
    satisfies the price bound of the campaign schema (all databases the
    handlers can build do). *)
Theorem failed_request_writes_nothing (r : Request) (db : Database) (e : Exception) :
  wf_db db ->
  fst (serve r db) = inl e ->
  snd (serve r db) = db.
Proof.
  intros W.
  destruct r as [u | payload | c | cid payload | cid payload | cid routing | payload];
    unfold serve, bind.
  - rewrite create_user_eq. destruct (List.find _ _); [reflexivity | discriminate].
  - destruct (flt (TopUp.amount payload) f50) eqn:G.
    + now rewrite wallet_topup_rejected.
    + destruct (lookup_user (TopUp.user_id payload) db) as [u|] eqn:H.
      * rewrite (wallet_topup_found payload db u G H). discriminate.
      * destruct (wallet_topup_unknown payload db H) as [e' ->]. reflexivity.
  - rewrite post_campaigns_eq. destruct (Campaign.valid c); [| reflexivity].
    rewrite create_campaign_eq.
    destruct (oid_result _); [reflexivity |].
    destruct (negb _); [reflexivity |].
    destruct (flt _ f35); [reflexivity | discriminate].
  - rewrite accept_campaign_eq.
    destruct (oid_result cid); [reflexivity |].
    destruct (List.find _ (campaign_docs db)); [| reflexivity].
    destruct (oid_result _); [reflexivity |].
    destruct (negb _); [reflexivity | discriminate].
  - rewrite set_transfer_number_eq.
    destruct (oid_result cid); [reflexivity |].
    destruct (List.find _ (campaign_docs db)); [discriminate | reflexivity].
  - destruct (lookup_campaign cid db) as [camp|] eqn:H.
    + rewrite (assign_routing_found cid routing db camp H). discriminate.
    + destruct (assign_routing_missing cid routing db H) as [e' ->]. reflexivity.
  - destruct (lookup_campaign (CallLogPayload.campaign_id payload) db)
      as [camp|] eqn:H.
    + rewrite (log_call_found payload db camp H).
      rewrite (call_debit_valid payload db camp _ W H).
      destruct (is_billable payload); [| discriminate].
      destruct (flt _ f50); discriminate.
    + destruct (log_call_missing payload db H) as [e' ->]. reflexivity.
Qed.

Lemma failed_request_writes_nothing_witness :
  fst (serve (LogCall stray_call) sample_db)
  = inl (HTTPException 404 "Campaign not found")
  /\ snd (serve (LogCall stray_call) sample_db) = sample_db.
Proof.
  assert (F : fst (serve (LogCall stray_call) sample_db)
              = inl (HTTPException 404 "Campaign not found"))
    by (vm_compute; reflexivity).
  split; [exact F |].
  exact (failed_request_writes_nothing (LogCall stray_call) sample_db _
           sample_db_wf F).
Defined.

(** ** Upserts *)

Lemma map_patch_first {D K} (key : ObjectId * D -> K) q (patch : D -> D)
    (c : collection D) :
  (forall d, key (fst d, patch (snd d)) = key d) ->
  map key (patch_first q patch c) = map key c.
Proof.
  intros K0. induction c as [|d c IH]; simpl; [reflexivity |].
  destruct (q d); simpl; [now rewrite K0 | now rewrite IH].
Qed.

Lemma find_none_key {D K} (key : ObjectId * D -> K) (q : ObjectId * D -> bool)
    (k : K) (c : collection D) :
  (forall d, key d = k -> q d = true) ->
  List.find q c = None -> ~ In k (map key c).
Proof.
  intros Q F I. apply in_map_iff in I. destruct I as (d & E & I).
  pose proof (find_none _ _ F d I) as N. rewrite (Q d E) in N. discriminate.
Qed.

Lemma NoDup_snoc {K} (l : list K) (k : K) :
  NoDup l -> ~ In k l -> NoDup (l ++ [k]).
Proof.
  intros N I. apply NoDup_app; [exact N | repeat constructor; intros [] | ].
  intros x X [<- | []]. contradiction.
Qed.

Lemma upsert_acceptance_keys (campaign_id : string) (payload : AcceptPayload.t)
    (db : Database) :
  NoDup (acceptance_keys db) ->
  NoDup (acceptance_keys (upsert_acceptance campaign_id payload db)).
Proof.
  intros N. unfold upsert_acceptance.
  destruct (List.find _ (selleracceptance_docs db)) as [e|] eqn:F.
  - unfold acceptance_keys. cbn [with_docs selleracceptance selleracceptance_docs].
    rewrite map_patch_first; [exact N | reflexivity].
  - unfold acceptance_keys. cbn [bump_oid with_docs selleracceptance selleracceptance_docs].
    rewrite map_app. apply NoDup_snoc; [exact N |].
    eapply find_none_key; [| exact F].
    intros d E. cbn beta in *. injection E as E1 E2.
    now rewrite E1, E2, !String.eqb_refl.
Qed.

(** The half of C7 the code keeps: whatever requests are served, there is
    at most one acceptance per (campaign, seller) pair. *)
Lemma acceptance_keys_serve (r : Request) (db : Database) :
  NoDup (acceptance_keys db) -> NoDup (acceptance_keys (snd (serve r db))).
Proof.
  intros N.
  destruct r as [u | payload | c | cid payload | cid payload | cid routing | payload];
    unfold serve, bind.
  - rewrite create_user_eq. destruct (List.find _ _); exact N.
  - destruct (flt (TopUp.amount payload) f50) eqn:G.
    + now rewrite wallet_topup_rejected.
    + destruct (lookup_user (TopUp.user_id payload) db) as [u|] eqn:H.
      * rewrite (wallet_topup_found payload db u G H). exact N.
      * destruct (wallet_topup_unknown payload db H) as [e ->]. exact N.
  - rewrite post_campaigns_eq. destruct (Campaign.valid c); [| exact N].
    rewrite create_campaign_eq.
    destruct (oid_result _); [exact N |].
    destruct (negb _); [exact N |].
    destruct (flt _ f35); exact N.
  - rewrite accept_campaign_eq.
    destruct (oid_result cid); [exact N |].
    destruct (List.find _ (campaign_docs db)); [| exact N].
    destruct (oid_result _); [exact N |].
    destruct (negb _); [exact N |].
    exact (upsert_acceptance_keys cid payload db N).
  - rewrite set_transfer_number_eq.
    destruct (oid_result cid); [exact N |].
    destruct (List.find _ (campaign_docs db)); exact N.
  - destruct (lookup_campaign cid db) as [camp|] eqn:H.
    + rewrite (assign_routing_found cid routing db camp H).
      unfold upsert_routing.
      destruct (List.find _ (routingassignment_docs db)); exact N.
    + destruct (assign_routing_missing cid routing db H) as [e ->]. exact N.
  - destruct (lookup_campaign (CallLogPayload.campaign_id payload) db)
      as [camp|] eqn:H.
    + rewrite (log_call_found payload db camp H).
      destruct (is_billable payload); [| exact N].
      destruct (WalletTransaction.valid _); [| exact N].
      destruct (flt _ f50); exact N.
    + destruct (log_call_missing payload db H) as [e ->]. exact N.
Qed.

Lemma acceptance_keys_serve_all (rs : list Request) :
  NoDup (acceptance_keys (serve_all rs empty_db)).
Proof.
  assert (G : forall db, NoDup (acceptance_keys db) ->
                         NoDup (acceptance_keys (serve_all rs db))).
  { induction rs as [|r rs IH]; intros db N; simpl; [exact N |].
    apply IH. now apply acceptance_keys_serve. }
  apply G. constructor.
Qed.

(** C7.  The routing upsert looks the record up under the campaign id of
    the request path but stores the campaign id of the request body.
    Submitting twice, for the sample campaign, a routing whose body names
    another campaign leaves two routing records for that campaign id. *)
Theorem assign_routing_misfiled_twice :
  lookup_campaign solar_id sample_db = Some (6%N, solar)
  /\ routing_keys
       (serve_all [AssignRouting solar_id misfiled_routing;
                   AssignRouting solar_id misfiled_routing] sample_db)
     = ["00000000000000000000000a"; "00000000000000000000000a"]%string.
Proof. split; vm_compute; reflexivity. Qed.

Lemma patch_own_document {K} (key : ObjectId * RoutingAssignment.t -> K)
    (routing : RoutingAssignment.t) (c : collection RoutingAssignment.t) e :
  NoDup (map fst c) -> In e c ->
  key (fst e, routing) = key e ->
  map key (patch_first (by_id (fst e)) (fun _ => routing) c) = map key c.
Proof.
  intros N I K0. induction c as [|a c IH]; simpl; [reflexivity |].
  inversion N as [|x l Nx Nc]; subst.
  destruct (by_id (fst e) a) eqn:B.
  - unfold by_id in B. apply N.eqb_eq in B.
    destruct I as [-> | I]; [simpl; now rewrite K0 |].
    exfalso. apply Nx. rewrite B. now apply in_map.
  - destruct I as [-> | I].
    + unfold by_id in B. now rewrite N.eqb_refl in B.
    + simpl. now rewrite IH.
Qed.

Lemma routing_ids_ok_mono (db db' : Database) :
  routingassignment_docs db' = routingassignment_docs db ->
  (next_oid db <= next_oid db')%N ->
  routing_ids_ok db -> routing_ids_ok db'.
Proof.
  intros E L [N F]. unfold routing_ids_ok. rewrite E. split; [exact N |].
  eapply Forall_impl; [| exact F]. intros d D. cbn beta in *. lia.
Qed.

Lemma upsert_routing_ok (campaign_id : string) (routing : RoutingAssignment.t)
    (db : Database) :
  RoutingAssignment.campaign_id routing = campaign_id ->
  routing_ids_ok db -> NoDup (routing_keys db) ->
  routing_ids_ok (upsert_routing campaign_id routing db)
  /\ NoDup (routing_keys (upsert_routing campaign_id routing db)).
Proof.
  intros C [N F] K. unfold upsert_routing, routing_ids_ok, routing_keys.
  destruct (List.find _ (routingassignment_docs db)) as [e|] eqn:E.
  - cbn [with_docs routingassignment routingassignment_docs next_oid].
    apply find_some in E. destruct E as [I Q]. cbn beta in Q.
    apply String.eqb_eq in Q.
    repeat split.
    + rewrite map_patch_first; [exact N | reflexivity].
    + apply Forall_patch_first; [| exact F]. intros d D. exact D.
    + rewrite patch_own_document; [exact K | exact N | exact I |].
      simpl. now rewrite C, Q.
  - cbn [bump_oid with_docs routingassignment routingassignment_docs next_oid].
    repeat split.
    + rewrite map_app. apply NoDup_snoc; [exact N |]. simpl.
      intros I. apply in_map_iff in I. destruct I as (d & D & I).
      rewrite Forall_forall in F. specialize (F d I). cbn beta in F.
      apply N.lt_neq in F. apply F. exact D.
    + apply Forall_app. split.
      * eapply Forall_impl; [| exact F]. intros d D. cbn beta in *. lia.
      * constructor; [simpl; lia | constructor].
    + rewrite map_app. apply NoDup_snoc; [exact K |]. simpl.
      eapply find_none_key; [| exact E].
      intros d D. cbn beta in *. rewrite D, C. apply String.eqb_refl.
Qed.

(** The half of C7 that holds only for consistent requests: as long as
    every routing body names the campaign of its request path, there is
    at most one routing per campaign id. *)
Lemma routing_keys_serve (r : Request) (db : Database) :
  consistent r -> routing_ids_ok db -> NoDup (routing_keys db) ->
  routing_ids_ok (snd (serve r db)) /\ NoDup (routing_keys (snd (serve r db))).
Proof.
  intros C I N.
  assert (Same : forall db', routingassignment_docs db' = routingassignment_docs db ->
                   (next_oid db <= next_oid db')%N ->
                   routing_ids_ok db' /\ NoDup (routing_keys db')).
  { intros db' E L. split; [now apply (routing_ids_ok_mono db) |].
    unfold routing_keys. now rewrite E. }
  destruct r as [u | payload | c | cid payload | cid payload | cid routing | payload];
    unfold serve, bind.
  - rewrite create_user_eq.
    destruct (List.find _ _); apply Same; simpl; (reflexivity || lia).
  - destruct (flt (TopUp.amount payload) f50) eqn:G.
    + rewrite wallet_topup_rejected by exact G. apply Same; simpl; (reflexivity || lia).
    + destruct (lookup_user (TopUp.user_id payload) db) as [u|] eqn:H.
      * rewrite (wallet_topup_found payload db u G H).
        apply Same; simpl; (reflexivity || lia).
      * destruct (wallet_topup_unknown payload db H) as [e ->].
        apply Same; simpl; (reflexivity || lia).
  - rewrite post_campaigns_eq.
    destruct (Campaign.valid c); [| apply Same; simpl; (reflexivity || lia)].
    rewrite create_campaign_eq.
    destruct (oid_result _); [apply Same; simpl; (reflexivity || lia) |].
    destruct (negb _); [apply Same; simpl; (reflexivity || lia) |].
    destruct (flt _ f35); apply Same; simpl; (reflexivity || lia).
  - rewrite accept_campaign_eq.
    destruct (oid_result cid); [apply Same; simpl; (reflexivity || lia) |].
    destruct (List.find _ (campaign_docs db));
      [| apply Same; simpl; (reflexivity || lia)].
    destruct (oid_result _); [apply Same; simpl; (reflexivity || lia) |].
    destruct (negb _); [apply Same; simpl; (reflexivity || lia) |].
    cbv zeta. unfold upsert_acceptance.
    destruct (List.find _ (selleracceptance_docs db));
      apply Same; simpl; (reflexivity || lia).
  - rewrite set_transfer_number_eq.
    destruct (oid_result cid); [apply Same; simpl; (reflexivity || lia) |].
    destruct (List.find _ (campaign_docs db));
      apply Same; simpl; (reflexivity || lia).
  - destruct (lookup_campaign cid db) as [camp|] eqn:H.
    + rewrite (assign_routing_found cid routing db camp H). cbn [snd].
      destruct (upsert_routing_ok cid routing db C I N) as [I1 N1].
      split; [| exact N1].
      eapply (routing_ids_ok_mono (upsert_routing cid routing db));
        [reflexivity | simpl; lia | exact I1].
    + destruct (assign_routing_missing cid routing db H) as [e ->].
      apply Same; simpl; (reflexivity || lia).
  - destruct (lookup_campaign (CallLogPayload.campaign_id payload) db)
      as [camp|] eqn:H.
    + rewrite (log_call_found payload db camp H).
      destruct (is_billable payload); [| apply Same; simpl; (reflexivity || lia)].
      destruct (WalletTransaction.valid _);
        [| apply Same; simpl; (reflexivity || lia)].
      destruct (flt _ f50); apply Same; simpl; (reflexivity || lia).
    + destruct (log_call_missing payload db H) as [e ->].
      apply Same; simpl; (reflexivity || lia).
Qed.

Lemma routing_keys_serve_all (rs : list Request) :
  Forall consistent rs -> NoDup (routing_keys (serve_all rs empty_db)).
Proof.
  assert (G : forall db, Forall consistent rs ->
                routing_ids_ok db -> NoDup (routing_keys db) ->
                NoDup (routing_keys (serve_all rs db))).
  { induction rs as [|r rs IH]; intros db C I N; simpl; [exact N |].
    inversion C as [|x l Cr Crs]; subst.
    destruct (routing_keys_serve r db Cr I N) as [I1 N1]. now apply IH. }
  intros C. apply G; [exact C | split; constructor | constructor].
Qed.
(** * Further properties of the handlers *)

(** ** Ids: printing, parsing, freshness *)

Lemma hex_value_char (d : N) : (d < 16)%N -> hex_value (hex_char d) = Some d.
Proof.
  intros H. destruct d as [|p]; [reflexivity |].
  do 4 (try destruct p as [p|p|]); try reflexivity; exfalso; lia.
Qed.

Lemma length_hex_string (k : nat) (n : N) (acc : string) :
  String.length (hex_string k n acc) = (k + String.length acc)%nat.
Proof.
  revert n acc. induction k as [|k IH]; intros n acc; simpl; [reflexivity |].
  rewrite IH. simpl. lia.
Qed.

Lemma is_space_hex_char (d : N) : (d < 16)%N -> is_space (hex_char d) = false.
Proof.
  intros H. destruct d as [|p]; [reflexivity |].
  do 4 (try destruct p as [p|p|]); try reflexivity; exfalso; lia.
Qed.

(** Reading back the bytes that [hex_string] prints, two digits a byte. *)
Lemma fromhex_hex_string (k : nat) (n a : N) (count : nat) (acc : string) :
  fromhex (hex_string (k + k) n acc) count a
  = fromhex acc (count + k) (a * 256 ^ N.of_nat k + n mod 256 ^ N.of_nat k)%N.
Proof.
  revert n a count acc. induction k as [|k IH]; intros n a count acc.
  - simpl. rewrite N.mod_1_r, Nat.add_0_r. f_equal. lia.
  - rewrite Nat.add_succ_r. cbn [Nat.add hex_string]. rewrite IH. cbn [fromhex].
    rewrite is_space_hex_char by (apply N.mod_lt; discriminate).
    rewrite !hex_value_char by (apply N.mod_lt; discriminate).
    f_equal; [lia |].
    rewrite Nat2N.inj_succ, N.pow_succ_r'.
    rewrite (N.Div0.mod_mul_r n 256 (256 ^ N.of_nat k)).
    change 256%N with (16 * 16)%N at 6.
    rewrite (N.Div0.mod_mul_r n 16 16).
    rewrite N.Div0.div_div. change (16 * 16)%N with 256%N. lia.
Qed.

Lemma oid_of_str_oid (i : ObjectId) (db : Database) :
  (i < oid_bound)%N -> oid (str_oid i) db = (inr (Some i), db).
Proof.
  intros B. unfold oid, str_oid. rewrite length_hex_string.
  cbn [String.length Nat.add Nat.eqb].
  change 24%nat with (12 + 12)%nat. rewrite fromhex_hex_string. cbn [fromhex Nat.add].
  change (256 ^ N.of_nat 12)%N with oid_bound.
  rewrite N.mul_0_l, N.add_0_l, N.mod_small by exact B. reflexivity.
Qed.

(** X1.  [oid] parses back every id that [str] prints: the string form of
    an id below [16^24] is accepted and yields that id, without touching
    the database; hence two such ids with the same string form are the
    same id. *)
Theorem oid_str_oid (i : ObjectId) (db : Database) :
  (i < oid_bound)%N ->
  oid (str_oid i) db = (inr (Some i), db)
  /\ (forall j : ObjectId, (j < oid_bound)%N -> str_oid j = str_oid i -> j = i).
Proof.
  intros B. split; [now apply oid_of_str_oid |].
  intros j Bj E.
  pose proof (oid_of_str_oid j db Bj) as Pj.
  rewrite E, (oid_of_str_oid i db B) in Pj. congruence.
Qed.

Lemma oid_str_oid_witness :
  oid (str_oid 6%N) sample_db = (inr (Some 6%N), sample_db).
Proof. apply oid_str_oid. reflexivity. Defined.

(** White space between bytes is skipped: a string of 24 characters
    with white space parses to an id of fewer than 12 bytes, under which
    no document is found; white space inside a byte is refused. *)
Lemma oid_white_space :
  oid_result "00 00 00 00 00 00 00 06 " = inr None
  /\ lookup_campaign "00 00 00 00 00 00 00 06 " sample_db = None
  /\ oid_result "0 0000000000000000000006"
     = inl (HTTPException 400 "Invalid id").
Proof. repeat split; vm_compute; reflexivity. Qed.

Lemma coll_ok_mono {D} (n n' : N) (c : collection D) :
  (n <= n')%N -> coll_ok n c -> coll_ok n' c.
Proof.
  intros L [U F]. split; [exact U |].
  eapply Forall_impl; [| exact F]. intros d H. cbn beta in *. lia.
Qed.

Lemma coll_ok_numbered {D} (n m n' : N) (c : collection D) (ds : list D) :
  coll_ok n c -> (n <= m)%N -> (m + N.of_nat (List.length ds) <= n')%N ->
  coll_ok n' (c ++ number_from m ds).
Proof.
  revert c n m. induction ds as [|d ds IH]; intros c n m K L B.
  - simpl. rewrite app_nil_r. apply (coll_ok_mono n); [simpl in B; lia | exact K].
  - cbn [number_from].
    change (c ++ (m, d) :: number_from (N.succ m) ds)
      with (c ++ [(m, d)] ++ number_from (N.succ m) ds).
    rewrite app_assoc. apply (IH _ (N.succ m)).
    + destruct K as [U F]. split.
      * rewrite map_app. apply NoDup_snoc; [exact U |]. simpl.
        intros I. apply in_map_iff in I. destruct I as (x & X & I).
        rewrite Forall_forall in F. specialize (F x I). cbn beta in F.
        assert (fst x <> m) as Ne by lia. apply Ne. exact X.
      * apply Forall_app. split.
        -- eapply Forall_impl; [| exact F]. intros x H. cbn beta in *. lia.
        -- constructor; [simpl; lia | constructor].
    + lia.
    + cbn [List.length] in B. lia.
Qed.

Lemma coll_ok_snoc {D} (n m n' : N) (c : collection D) (d : D) :
  coll_ok n c -> (n <= m)%N -> (m < n')%N -> coll_ok n' (c ++ [(m, d)]).
Proof.
  intros K L B. apply (coll_ok_numbered n m n' c [d]); [exact K | exact L |].
  simpl. lia.
Qed.

Lemma coll_ok_patch {D} (n : N) q (patch : D -> D) (c : collection D) :
  coll_ok n c -> coll_ok n (patch_first q patch c).
Proof.
  intros [U F]. split.
  - rewrite map_patch_first; [exact U | reflexivity].
  - apply Forall_patch_first; [| exact F]. intros d H. exact H.
Qed.

Ltac coll_ok_tac :=
  match goal with
  | K : coll_ok ?n ?c |- coll_ok _ ?c =>
      apply (coll_ok_mono n); [simpl; lia | exact K]
  | K : coll_ok ?n ?c |- coll_ok _ (patch_first _ _ ?c) =>
      apply (coll_ok_mono n); [simpl; lia | apply coll_ok_patch; exact K]
  | K : coll_ok ?n ?c |- coll_ok _ (?c ++ [(?m, _)]) =>
      apply (coll_ok_snoc n m); [exact K | simpl; lia | simpl; lia]
  | K : coll_ok ?n ?c |- coll_ok _ ((?c ++ [(?m, _)]) ++ number_from ?k ?ds) =>
      apply (coll_ok_numbered (N.succ m) k);
        [apply (coll_ok_snoc n m); [exact K | simpl; lia | simpl; lia]
        | simpl; lia | simpl; rewrite ?length_map; lia]
  | K : coll_ok ?n ?c |- coll_ok _ (?c ++ (?m, ?d) :: number_from ?k ?ds) =>
      change (c ++ (m, d) :: number_from k ds)
        with (c ++ [(m, d)] ++ number_from k ds);
      rewrite app_assoc;
      apply (coll_ok_numbered (N.succ m) k);
        [apply (coll_ok_snoc n m); [exact K | simpl; lia | simpl; lia]
        | simpl; lia | simpl; rewrite ?length_map; lia]
  | K : coll_ok ?n ?c |- coll_ok _ (?c ++ number_from ?m ?ds) =>
      apply (coll_ok_numbered n m);
        [exact K | simpl; lia | simpl; rewrite ?length_map; lia]
  end.

Ltac ids_ok_tac :=
  unfold ids_ok; simpl;
  repeat match goal with |- _ /\ _ => split end; coll_ok_tac.

(** Fresh ids: every handler keeps the ids of every collection distinct
    and below the next id the store will hand out. *)
Lemma ids_ok_serve (r : Request) (db : Database) :
  ids_ok db -> ids_ok (snd (serve r db)).
Proof.
  intros I. pose proof I as (Ku & Kw & Kc & Ka & Kr & Kl & Kn).
  destruct r as [u | payload | c | cid payload | cid payload | cid routing | payload];
    unfold serve, bind.
  - rewrite create_user_eq. destruct (List.find _ _); [exact I | ids_ok_tac].
  - destruct (flt (TopUp.amount payload) f50) eqn:G.
    + now rewrite wallet_topup_rejected.
    + destruct (lookup_user (TopUp.user_id payload) db) as [u|] eqn:H.
      * rewrite (wallet_topup_found payload db u G H). ids_ok_tac.
      * destruct (wallet_topup_unknown payload db H) as [e ->]. exact I.
  - rewrite post_campaigns_eq. destruct (Campaign.valid c); [| exact I].
    rewrite create_campaign_eq.
    destruct (oid_result _); [exact I |].
    destruct (negb _); [exact I |].
    destruct (flt _ f35); [exact I | ids_ok_tac].
  - rewrite accept_campaign_eq.
    destruct (oid_result cid); [exact I |].
    destruct (List.find _ (campaign_docs db)); [| exact I].
    destruct (oid_result _); [exact I |].
    destruct (negb _); [exact I |].
    cbv zeta. unfold upsert_acceptance.
    destruct (List.find _ (selleracceptance_docs db)); ids_ok_tac.
  - rewrite set_transfer_number_eq.
    destruct (oid_result cid); [exact I |].
    destruct (List.find _ (campaign_docs db)); [ids_ok_tac | exact I].
  - destruct (lookup_campaign cid db) as [camp|] eqn:H.
    + rewrite (assign_routing_found cid routing db camp H).
      unfold upsert_routing, routing_notifications.
      destruct (List.find _ (routingassignment_docs db)); ids_ok_tac.
    + destruct (assign_routing_missing cid routing db H) as [e ->]. exact I.
  - destruct (lookup_campaign (CallLogPayload.campaign_id payload) db)
      as [camp|] eqn:H.
    + rewrite (log_call_found payload db camp H).
      destruct (is_billable payload); [| ids_ok_tac].
      destruct (WalletTransaction.valid _); [| ids_ok_tac].
      destruct (flt _ f50); ids_ok_tac.
    + destruct (log_call_missing payload db H) as [e ->]. exact I.
Qed.

Lemma ids_ok_serve_all (rs : list Request) (db : Database) :
  ids_ok db -> ids_ok (serve_all rs db).
Proof.
  revert db. induction rs as [|r rs IH]; intros db I; simpl; [exact I |].
  apply IH. now apply ids_ok_serve.
Qed.

Lemma ids_ok_empty : ids_ok empty_db.
Proof. unfold ids_ok, coll_ok. simpl. repeat split; constructor. Qed.

Lemma sample_db_ids_ok : ids_ok sample_db.
Proof. apply ids_ok_serve_all, ids_ok_empty. Qed.

Lemma find_snoc_fresh {D} (n : N) (c : collection D) (d : D) :
  Forall (fun x => (fst x < n)%N) c ->
  List.find (by_id n) (c ++ [(n, d)]) = Some (n, d).
Proof.
  intros F. induction F as [|x c X F IH]; simpl.
  - unfold by_id. simpl. now rewrite N.eqb_refl.
  - unfold by_id at 1.
    match goal with |- (if ?b then _ else _) = _ => destruct b eqn:E end;
      [| exact IH].
    apply N.eqb_eq in E. exfalso. apply (N.lt_neq _ _ X). exact E.
Qed.

Lemma find_app_l {D} (q : D -> bool) (c c' : list D) d :
  List.find q c = Some d -> List.find q (c ++ c') = Some d.
Proof.
  induction c as [|x c IH]; simpl; [discriminate |].
  destruct (q x); auto.
Qed.

Lemma find_app_none {D} (q : D -> bool) (c c' : list D) :
  List.find q c = None -> List.find q (c ++ c') = List.find q c'.
Proof.
  induction c as [|x c IH]; simpl; [reflexivity |].
  destruct (q x); [discriminate | auto].
Qed.

(** ** Users *)

Lemma find_email (e : string) (db : Database) :
  (exists d, List.find (fun d => User.email (snd d) =? e) (user_docs db) = Some d)
  <-> In e (emails db).
Proof.
  unfold emails. split.
  - intros [d F]. apply find_some in F. destruct F as [I E].
    apply String.eqb_eq in E. apply in_map_iff. exists d. split; assumption.
  - intros I. apply in_map_iff in I. destruct I as (d & E & I).
    destruct (List.find _ (user_docs db)) as [x|] eqn:F; [eauto |].
    pose proof (find_none _ _ F d I) as N. cbn beta in N.
    rewrite E, String.eqb_refl in N. discriminate.
Qed.

Lemma emails_serve (r : Request) (db : Database) :
  NoDup (emails db) -> NoDup (emails (snd (serve r db))).
Proof.
  intros N.
  destruct r as [u | payload | c | cid payload | cid payload | cid routing | payload];
    unfold serve, bind.
  - rewrite create_user_eq.
    destruct (List.find _ _) eqn:F; [exact N |].
    unfold emails. simpl. rewrite map_app.
    apply NoDup_snoc; [exact N |]. simpl. intros I.
    apply find_email in I. destruct I as [d I]. congruence.
  - destruct (flt (TopUp.amount payload) f50) eqn:G.
    + now rewrite wallet_topup_rejected.
    + destruct (lookup_user (TopUp.user_id payload) db) as [u|] eqn:H.
      * rewrite (wallet_topup_found payload db u G H). exact N.
      * destruct (wallet_topup_unknown payload db H) as [e ->]. exact N.
  - rewrite post_campaigns_eq. destruct (Campaign.valid c); [| exact N].
    rewrite create_campaign_eq.
    destruct (oid_result _); [exact N |].
    destruct (negb _); [exact N |].
    destruct (flt _ f35); exact N.
  - rewrite accept_campaign_eq.
    destruct (oid_result cid); [exact N |].
    destruct (List.find _ (campaign_docs db)); [| exact N].
    destruct (oid_result _); [exact N |].
    destruct (negb _); [exact N |].
    cbv zeta. unfold upsert_acceptance.
    destruct (List.find _ (selleracceptance_docs db)); exact N.
  - rewrite set_transfer_number_eq.
    destruct (oid_result cid); [exact N |].
    destruct (List.find _ (campaign_docs db)); exact N.
  - destruct (lookup_campaign cid db) as [camp|] eqn:H.
    + rewrite (assign_routing_found cid routing db camp H). exact N.
    + destruct (assign_routing_missing cid routing db H) as [e ->]. exact N.
  - destruct (lookup_campaign (CallLogPayload.campaign_id payload) db)
      as [camp|] eqn:H.
    + rewrite (log_call_found payload db camp H).
      destruct (is_billable payload); [| exact N].
      destruct (WalletTransaction.valid _); [| exact N].
      destruct (flt _ f50); exact N.
    + destruct (log_call_missing payload db H) as [e ->]. exact N.
Qed.

(** X2.  E-mail addresses stay unique: whatever requests are served from
    the empty database, no two user documents carry the same e-mail. *)
Theorem emails_unique (rs : list Request) :
  NoDup (emails (serve_all rs empty_db)).
Proof.
  assert (G : forall db, NoDup (emails db) -> NoDup (emails (serve_all rs db))).
  { induction rs as [|r rs IH]; intros db N; simpl; [exact N |].
    apply IH. now apply emails_serve. }
  apply G. constructor.
Qed.

(** X3.  [create_user] succeeds exactly when the e-mail is not registered
    yet; a duplicate is refused with status 400 and nothing is written. *)
Theorem create_user_refuses_duplicates (u : User.t) (db : Database) :
  ((exists r, fst (create_user u db) = inr r) <-> ~ In (User.email u) (emails db))
  /\ (In (User.email u) (emails db) ->
      create_user u db = (inl (HTTPException 400 "Email already registered"), db)).
Proof.
  rewrite create_user_eq.
  destruct (List.find _ (user_docs db)) as [d|] eqn:F.
  - assert (I : In (User.email u) (emails db)) by (apply find_email; eauto).
    split; [split |].
    + intros [r R]. simpl in R. discriminate R.
    + intros N. contradiction.
    + reflexivity.
  - assert (N : ~ In (User.email u) (emails db)).
    { intros I. apply find_email in I. destruct I as [d I]. congruence. }
    split; [split |].
    + intros _. exact N.
    + intros _. eexists. reflexivity.
    + intros I. contradiction.
Qed.

Lemma create_user_refuses_duplicates_witness :
  create_user ann sample_db
  = (inl (HTTPException 400 "Email already registered"), sample_db).
Proof.
  apply (proj2 (create_user_refuses_duplicates ann sample_db)).
  vm_compute. left. reflexivity.
Defined.

(** X4.  A registered user can be found under the id [create_user]
    returns: on a database with fresh ids, the returned string resolves
    to the new user document, and exactly one notification, the welcome
    addressed to that id, is appended. *)
Theorem create_user_then_lookup (u : User.t) (db : Database) :
  ids_ok db -> (next_oid db < oid_bound)%N ->
  ~ In (User.email u) (emails db) ->
  let user_id := str_oid (next_oid db) in
  let db' := snd (create_user u db) in
  fst (create_user u db) = inr user_id
  /\ lookup_user user_id db' = Some (next_oid db, u)
  /\ notification_docs db'
     = notification_docs db
       ++ [(N.succ (next_oid db),
            Notification.mk user_id
              ("Welcome to Live Transfers Exchange, " ++ User.name u ++ "!")%string
              false)].
Proof.
  intros I B N user_id db'. subst db'. rewrite create_user_eq.
  destruct (List.find _ (user_docs db)) as [d|] eqn:F.
  - exfalso. apply N. apply find_email. eauto.
  - cbn [fst snd]. split; [reflexivity | split; [| reflexivity]].
    unfold lookup_user, user_id. rewrite (oid_of_str_oid _ _ B).
    cbn [fst user_docs by_oid].
    apply find_snoc_fresh. destruct I as [[_ Fu] _]. exact Fu.
Qed.

Lemma create_user_then_lookup_witness :
  lookup_user (str_oid 8%N)
    (snd (create_user (User.mk "Dan" "dan@example.com" seller None None true)
            sample_db))
  = Some (8%N, User.mk "Dan" "dan@example.com" seller None None true).
Proof.
  refine (proj1 (proj2 (create_user_then_lookup _ sample_db sample_db_ids_ok _ _))).
  - reflexivity.
  - vm_compute. intros [H | [H | [H | []]]]; discriminate H.
Defined.

(** ** Campaign creation *)

Lemma Role_eqb_eq (a b : Role) : Role_eqb a b = true <-> a = b.
Proof. destruct a, b; simpl; split; intros H; congruence. Qed.

Lemma has_role_lookup (r : Role) (user_id : string) (db : Database)
    (i : option ObjectId) :
  oid_result user_id = inr i ->
  has_role r (List.find (by_oid i) (user_docs db)) = true
  <-> exists u, lookup_user user_id db = Some u /\ User.role (snd u) = r.
Proof.
  intros Hi. unfold lookup_user. rewrite oid_eq, Hi. cbn [fst].
  destruct (List.find _ (user_docs db)) as [u|]; simpl.
  - rewrite Role_eqb_eq. split; [eauto |]. intros (x & X & R). congruence.
  - split; [discriminate |]. intros (x & X & _). discriminate.
Qed.

Lemma no_role_without_id (r : Role) (user_id : string) (db : Database) e :
  oid_result user_id = inl e ->
  ~ exists u, lookup_user user_id db = Some u /\ User.role (snd u) = r.
Proof.
  intros He (u & U & _). unfold lookup_user in U.
  rewrite oid_eq, He in U. discriminate.
Qed.

(** X5.  [POST /campaigns] succeeds exactly when the body is within the
    bounds of its schema (a price per call that does not compare below
    35, a daily cap of at least 1) and [buyer_id] resolves to a user whose
    role is [buyer].  A body outside the bounds is refused before the
    handler runs (status 422), so that the price guard of the handler
    never fires; the refusals of the handler carry status 400; every
    refusal leaves the database as it was. *)
Theorem post_campaigns_guards (c : Campaign.t) (db : Database) :
  ((exists r, fst (post_campaigns c db) = inr r)
   <-> flt (Campaign.price_per_call c) f35 = false
       /\ (1 <= Campaign.daily_cap c)%Z
       /\ (exists u, lookup_user (Campaign.buyer_id c) db = Some u
                     /\ User.role (snd u) = buyer))
  /\ (flt (Campaign.price_per_call c) f35 = true \/ (Campaign.daily_cap c < 1)%Z ->
      post_campaigns c db = (inl (RequestValidationError "Campaign"), db))
  /\ (forall e, fst (post_campaigns c db) = inl e ->
        snd (post_campaigns c db) = db
        /\ (e = RequestValidationError "Campaign"
            \/ e = HTTPException 400 "Invalid id"
            \/ e = HTTPException 400 "Invalid buyer"))
  /\ fst (post_campaigns c db)
     <> inl (HTTPException 400 "Minimum price per call is $35").
Proof.
  rewrite post_campaigns_eq. unfold Campaign.valid.
  destruct (flt (Campaign.price_per_call c) f35) eqn:P; cbn [negb andb].
  { split; [split |]; [| | split; [| split]].
    - intros [r R]. discriminate R.
    - intros [G _]. discriminate G.
    - reflexivity.
    - intros e E. split; [reflexivity |]. left. simpl in E. congruence.
    - discriminate. }
  destruct (1 <=? Campaign.daily_cap c)%Z eqn:C.
  2:{ apply Z.leb_gt in C. split; [split |]; [| | split; [| split]].
      - intros [r R]. discriminate R.
      - intros (_ & G & _). lia.
      - reflexivity.
      - intros e E. split; [reflexivity |]. left. simpl in E. congruence.
      - discriminate. }
  apply Z.leb_le in C. rewrite create_campaign_eq.
  destruct (oid_result (Campaign.buyer_id c)) as [e0|i] eqn:Hi.
  - split; [split |]; [| | split; [| split]].
    + intros [r R]. discriminate R.
    + intros (_ & _ & U). exfalso. exact (no_role_without_id _ _ db _ Hi U).
    + intros [G | G]; [discriminate G | lia].
    + intros e E. simpl in E. injection E as <-.
      apply oid_raises in Hi. subst e0. auto.
    + apply oid_raises in Hi. subst e0. discriminate.
  - pose proof (has_role_lookup buyer _ db i Hi) as B.
    destruct (has_role buyer _) eqn:R; cbn [negb].
    + rewrite P. split; [split |]; [| | split; [| split]].
      * intros _. split; [reflexivity | split; [exact C | apply B; reflexivity]].
      * intros _. eexists. reflexivity.
      * intros [G | G]; [discriminate G | lia].
      * intros e E. discriminate E.
      * discriminate.
    + split; [split |]; [| | split; [| split]].
      * intros [r X]. discriminate X.
      * intros (_ & _ & U). apply B in U. discriminate U.
      * intros [G | G]; [discriminate G | lia].
      * intros e E. simpl in E. injection E as <-. auto.
      * discriminate.
Qed.

Lemma post_campaigns_guards_witness :
  post_campaigns
    (Campaign.mk ann_id Solar (of_int 20) 5 [] "09:00" "17:00" None pending_acceptance)
    sample_db
  = (inl (RequestValidationError "Campaign"), sample_db).
Proof.
  refine (proj1 (proj2 (post_campaigns_guards
                          (Campaign.mk ann_id Solar (of_int 20) 5 [] "09:00" "17:00" None
                             pending_acceptance) sample_db)) _).
  left. reflexivity.
Defined.

(** X6.  A campaign that passes the guards is stored as submitted, its
    status included, and can be found under the id [create_campaign]
    returns; one notification is appended for every user whose role is
    [seller], in the order of the user collection, addressed to that
    user's id; users and ledger are not touched. *)
Theorem create_campaign_stores_and_notifies (c : Campaign.t) (db : Database) u :
  ids_ok db -> (next_oid db < oid_bound)%N ->
  lookup_user (Campaign.buyer_id c) db = Some u -> User.role (snd u) = buyer ->
  flt (Campaign.price_per_call c) f35 = false ->
  let camp_id := str_oid (next_oid db) in
  let db' := snd (create_campaign c db) in
  let sellers := filter (fun d => Role_eqb (User.role (snd d)) seller) (user_docs db) in
  fst (create_campaign c db) = inr camp_id
  /\ lookup_campaign camp_id db' = Some (next_oid db, c)
  /\ campaign_docs db' = campaign_docs db ++ [(next_oid db, c)]
  /\ map snd (notification_docs db')
     = map snd (notification_docs db)
       ++ map (fun s : ObjectId * User.t =>
                 Notification.mk (str_oid (fst s))
                   ("New campaign available: "
                    ++ Vertical_str (Campaign.vertical c))%string false)
            sellers
  /\ user_docs db' = user_docs db
  /\ wallettransaction_docs db' = wallettransaction_docs db.
Proof.
  intros I B U R P camp_id db' sellers. subst db'.
  apply lookup_user_eq in U. destruct U as (i & Hi & F).
  rewrite create_campaign_eq, Hi. cbn [by_oid].
  assert (HR : has_role buyer (List.find (by_id i) (user_docs db)) = true).
  { rewrite F. simpl. now apply Role_eqb_eq. }
  rewrite HR. cbn [negb]. rewrite P. cbv zeta. cbn [fst snd].
  split; [reflexivity | split; [| split; [reflexivity | split; [| split; reflexivity]]]].
  - unfold lookup_campaign, camp_id. rewrite (oid_of_str_oid _ _ B).
    cbn [fst campaign_docs by_oid].
    apply find_snoc_fresh. destruct I as (_ & _ & [_ Fc] & _). exact Fc.
  - cbn [notification_docs]. apply map_snd_app_numbered.
Qed.

Lemma create_campaign_stores_and_notifies_witness :
  lookup_campaign (str_oid 8%N)
    (snd (create_campaign
            (Campaign.mk ann_id Debt (of_int 60) 5 [] "08:00" "20:00" None active) sample_db))
  = Some (8%N, Campaign.mk ann_id Debt (of_int 60) 5 [] "08:00" "20:00" None active).
Proof.
  refine (proj1 (proj2 (create_campaign_stores_and_notifies
                          (Campaign.mk ann_id Debt (of_int 60) 5 [] "08:00" "20:00" None active)
                          sample_db (0%N, ann)
                          sample_db_ids_ok _ sample_db_ann eq_refl _))).
  - reflexivity.
  - reflexivity.
Defined.

(** ** Seller acceptance *)

Lemma find_patch_own {D} (q : ObjectId * D -> bool) (patch : D -> D)
    (c : collection D) e :
  NoDup (map fst c) -> List.find q c = Some e ->
  q (fst e, patch (snd e)) = true ->
  List.find q (patch_first (by_id (fst e)) patch c) = Some (fst e, patch (snd e)).
Proof.
  intros N F Q. induction c as [|a c IH]; simpl in *; [discriminate |].
  inversion N as [|x l Na Nc]; subst.
  destruct (q a) eqn:Qa.
  - injection F as ->. unfold by_id at 1. rewrite N.eqb_refl. simpl. now rewrite Q.
  - destruct (by_id (fst e) a) eqn:B.
    + exfalso. unfold by_id in B. apply N.eqb_eq in B.
      apply find_some in F. destruct F as [I _]. apply Na.
      rewrite B. apply in_map_iff. exists e. split; [reflexivity | exact I].
    + simpl. rewrite Qa. auto.
Qed.

(** X7.  [accept_campaign] succeeds exactly when the campaign exists and
    [seller_id] resolves to a user whose role is [seller].  It then
    appends exactly one notification, for the campaign's buyer, and
    leaves every campaign (its status included), the ledger and the
    routings as they were. *)
Theorem accept_campaign_guards_and_effects (campaign_id : string)
    (payload : AcceptPayload.t) (db : Database) :
  let db' := snd (accept_campaign campaign_id payload db) in
  ((exists r, fst (accept_campaign campaign_id payload db) = inr r)
   <-> (exists camp, lookup_campaign campaign_id db = Some camp)
       /\ (exists s, lookup_user (AcceptPayload.seller_id payload) db = Some s
                     /\ User.role (snd s) = seller))
  /\ (forall camp r,
        lookup_campaign campaign_id db = Some camp ->
        fst (accept_campaign campaign_id payload db) = inr r ->
        r = true
        /\ map snd (notification_docs db')
           = map snd (notification_docs db)
             ++ [Notification.mk (Campaign.buyer_id (snd camp))
                   "A seller responded to your campaign." false]
        /\ campaign_docs db' = campaign_docs db
        /\ wallettransaction_docs db' = wallettransaction_docs db
        /\ routingassignment_docs db' = routingassignment_docs db).
Proof.
  intros db'. subst db'. rewrite accept_campaign_eq.
  unfold lookup_campaign. rewrite oid_eq. cbn [fst].
  destruct (oid_result campaign_id) as [e|i] eqn:Hi.
  { split; [split |].
    - intros [r R]. discriminate R.
    - intros [[camp C] _]. discriminate C.
    - intros camp r C. discriminate C. }
  destruct (List.find (by_oid i) (campaign_docs db)) as [camp0|] eqn:F.
  2:{ split; [split |].
      - intros [r R]. discriminate R.
      - intros [[camp C] _]. discriminate C.
      - intros camp r C. discriminate C. }
  destruct (oid_result (AcceptPayload.seller_id payload)) as [e|j] eqn:Hj.
  { split; [split |].
    - intros [r R]. discriminate R.
    - intros [_ S]. exfalso. exact (no_role_without_id _ _ db _ Hj S).
    - intros camp r _ R. discriminate R. }
  pose proof (has_role_lookup seller _ db j Hj) as S.
  destruct (has_role seller _) eqn:R; cbn [negb].
  - cbv zeta. split; [split |].
    + intros _. split; [eauto | apply S; reflexivity].
    + intros _. eexists. reflexivity.
    + intros camp r C X. injection C as <-. cbn [fst] in X. injection X as <-.
      unfold upsert_acceptance.
      destruct (List.find _ (selleracceptance_docs db)); cbn [fst snd];
        (split; [reflexivity |]); simpl; rewrite map_app; repeat split.
  - split; [split |].
    + intros [r X]. discriminate X.
    + intros [_ U]. apply S in U. discriminate U.
    + intros camp r _ X. discriminate X.
Qed.

Lemma accept_campaign_guards_and_effects_witness :
  campaign_docs
    (snd (accept_campaign solar_id (AcceptPayload.mk bob_id accepted) sample_db))
  = campaign_docs sample_db.
Proof.
  pose proof (proj2 (accept_campaign_guards_and_effects solar_id
                       (AcceptPayload.mk bob_id accepted) sample_db)
                (6%N, solar) true sample_db_solar) as T.
  cbv zeta in T. apply T. vm_compute. reflexivity.
Defined.

(** X8.  The latest answer of a seller wins: on a database with fresh
    ids, after a successful [accept_campaign] the acceptance found for
    the (campaign, seller) pair carries the submitted status; an existing
    record keeps its id and place and no record is added, otherwise one
    record is appended. *)
Theorem accept_campaign_latest_wins (campaign_id : string)
    (payload : AcceptPayload.t) (db : Database) r :
  ids_ok db ->
  fst (accept_campaign campaign_id payload db) = inr r ->
  let seller_id := AcceptPayload.seller_id payload in
  let db' := snd (accept_campaign campaign_id payload db) in
  let record := SellerAcceptance.mk campaign_id seller_id (AcceptPayload.status payload) in
  match lookup_acceptance campaign_id seller_id db with
  | Some e =>
      lookup_acceptance campaign_id seller_id db'
      = Some (fst e, SellerAcceptance.set_status (AcceptPayload.status payload) (snd e))
      /\ SellerAcceptance.set_status (AcceptPayload.status payload) (snd e) = record
      /\ map fst (selleracceptance_docs db') = map fst (selleracceptance_docs db)
  | None =>
      lookup_acceptance campaign_id seller_id db' = Some (next_oid db, record)
      /\ selleracceptance_docs db' = selleracceptance_docs db ++ [(next_oid db, record)]
  end.
Proof.
  intros I R seller_id db' record. subst db'. revert R.
  rewrite accept_campaign_eq.
  destruct (oid_result campaign_id); [discriminate |].
  destruct (List.find _ (campaign_docs db)); [| discriminate].
  destruct (oid_result _); [discriminate |].
  destruct (negb _); [discriminate |].
  intros _. cbv zeta. unfold upsert_acceptance, lookup_acceptance.
  fold seller_id. fold (acceptance_filter campaign_id seller_id).
  destruct (List.find (acceptance_filter campaign_id seller_id)
              (selleracceptance_docs db)) as [e|] eqn:F.
  - cbn [fst snd bump_oid with_docs selleracceptance notification selleracceptance_docs].
    pose proof (find_some _ _ F) as [_ Q]. unfold acceptance_filter in Q.
    apply andb_true_iff in Q. destruct Q as [Q1 Q2].
    apply String.eqb_eq in Q1. apply String.eqb_eq in Q2.
    split; [| split].
    + apply find_patch_own; [| exact F |].
      * destruct I as (_ & _ & _ & [U _] & _). exact U.
      * unfold acceptance_filter. simpl. now rewrite Q1, Q2, !String.eqb_refl.
    + unfold SellerAcceptance.set_status, record. now rewrite Q1, Q2.
    + apply map_patch_first. reflexivity.
  - cbn [fst snd bump_oid with_docs selleracceptance notification selleracceptance_docs].
    split; [| reflexivity].
    rewrite find_app_none by exact F. simpl.
    unfold acceptance_filter. simpl. now rewrite !String.eqb_refl.
Qed.

Lemma accept_campaign_latest_wins_witness :
  lookup_acceptance solar_id bob_id
    (serve_all [AcceptCampaign solar_id (AcceptPayload.mk bob_id accepted);
                AcceptCampaign solar_id (AcceptPayload.mk bob_id rejected)] sample_db)
  = Some (8%N, SellerAcceptance.mk solar_id bob_id rejected).
Proof.
  set (db1 := snd (serve (AcceptCampaign solar_id (AcceptPayload.mk bob_id accepted))
                     sample_db)).
  assert (I : ids_ok db1) by (apply ids_ok_serve, sample_db_ids_ok).
  assert (R : fst (accept_campaign solar_id (AcceptPayload.mk bob_id rejected) db1)
              = inr true) by (vm_compute; reflexivity).
  pose proof (accept_campaign_latest_wins solar_id (AcceptPayload.mk bob_id rejected)
                db1 true I R) as T.
  cbv zeta in T.
  assert (L : lookup_acceptance solar_id
                (AcceptPayload.seller_id (AcceptPayload.mk bob_id rejected)) db1
              = Some (8%N, SellerAcceptance.mk solar_id bob_id accepted))
    by (vm_compute; reflexivity).
  rewrite L in T. destruct T as [T _].
  change (serve_all _ sample_db)
    with (snd (serve (AcceptCampaign solar_id (AcceptPayload.mk bob_id rejected)) db1)).
  unfold serve, bind.
  destruct (accept_campaign solar_id (AcceptPayload.mk bob_id rejected) db1)
    as [[e|b] db2] eqn:E; [discriminate R |].
  exact T.
Defined.

(** ** Transfer number *)

(** X9.  [set_transfer_number] on an existing campaign records the number
    and moves the campaign to [awaiting_admin] whatever its status was;
    the campaign's other fields stay, exactly one notification is
    appended, addressed to the literal user id admin, and ledger,
    acceptances and routings are not touched. *)
Theorem set_transfer_number_effects (campaign_id : string)
    (payload : TransferNumberPayload.t) (db : Database) camp :
  lookup_campaign campaign_id db = Some camp ->
  let db' := snd (set_transfer_number campaign_id payload db) in
  fst (set_transfer_number campaign_id payload db) = inr true
  /\ lookup_campaign campaign_id db'
     = Some (fst camp,
             Campaign.mk (Campaign.buyer_id (snd camp)) (Campaign.vertical (snd camp))
               (Campaign.price_per_call (snd camp)) (Campaign.daily_cap (snd camp))
               (Campaign.states (snd camp)) (Campaign.time_start (snd camp))
               (Campaign.time_end (snd camp))
               (Some (TransferNumberPayload.transfer_number payload))
               awaiting_admin)
  /\ notification_docs db'
     = notification_docs db
       ++ [(next_oid db,
            Notification.mk "admin"
              ("Campaign " ++ campaign_id ++ " ready for routing")%string false)]
  /\ wallettransaction_docs db' = wallettransaction_docs db
  /\ selleracceptance_docs db' = selleracceptance_docs db
  /\ routingassignment_docs db' = routingassignment_docs db.
Proof.
  intros H db'. subst db'. pose proof H as H0.
  apply lookup_campaign_eq in H. destruct H as (i & Hi & F).
  rewrite set_transfer_number_eq, Hi. cbn [by_oid]. rewrite F. cbn [fst snd].
  split; [reflexivity | split; [| repeat split]].
  apply (lookup_campaign_patched campaign_id db _ camp
           (fun c => Campaign.set_status awaiting_admin
                       (Campaign.set_transfer_number
                          (TransferNumberPayload.transfer_number payload) c)));
    [exact H0 | reflexivity].
Qed.

Lemma set_transfer_number_effects_witness :
  lookup_campaign solar_id
    (snd (set_transfer_number solar_id (TransferNumberPayload.mk "+15550123") sample_db))
  = Some (6%N,
          Campaign.mk ann_id Solar f35 10 ["TX"; "CA"] "09:00" "17:00"
            (Some "+15550123") awaiting_admin).
Proof.
  exact (proj1 (proj2 (set_transfer_number_effects solar_id
                         (TransferNumberPayload.mk "+15550123") sample_db
                         (6%N, solar) sample_db_solar))).
Defined.

(** ** Routing upsert *)

(** X10.  A routing whose body names the campaign of the request path can
    be read back: on a database with fresh ids, after [assign_routing]
    the routing found for the campaign is the submitted one; an existing
    record keeps its id and no record is added, otherwise one record is
    appended. *)
Theorem assign_routing_then_lookup (campaign_id : string)
    (routing : RoutingAssignment.t) (db : Database) camp :
  ids_ok db ->
  lookup_campaign campaign_id db = Some camp ->
  RoutingAssignment.campaign_id routing = campaign_id ->
  let db' := snd (assign_routing campaign_id routing db) in
  match lookup_routing campaign_id db with
  | Some e =>
      lookup_routing campaign_id db' = Some (fst e, routing)
      /\ map fst (routingassignment_docs db') = map fst (routingassignment_docs db)
  | None =>
      lookup_routing campaign_id db' = Some (next_oid db, routing)
      /\ routingassignment_docs db'
         = routingassignment_docs db ++ [(next_oid db, routing)]
  end.
Proof.
  intros I H C db'. subst db'.
  rewrite (assign_routing_found campaign_id routing db camp H).
  unfold lookup_routing, upsert_routing. cbn [snd routingassignment_docs].
  destruct (List.find _ (routingassignment_docs db)) as [e|] eqn:F;
    cbn [bump_oid with_docs routingassignment routingassignment_docs].
  - split.
    + apply (find_patch_own _ (fun _ => routing)); [| exact F |].
      * destruct I as (_ & _ & _ & _ & [U _] & _). exact U.
      * simpl. rewrite C. apply String.eqb_refl.
    + apply map_patch_first. reflexivity.
  - split; [| reflexivity].
    rewrite find_app_none by exact F. simpl. now rewrite C, String.eqb_refl.
Qed.

Lemma assign_routing_then_lookup_witness :
  lookup_routing solar_id (snd (assign_routing solar_id solar_routing sample_db))
  = Some (8%N, solar_routing).
Proof.
  pose proof (assign_routing_then_lookup solar_id solar_routing sample_db (6%N, solar)
                sample_db_ids_ok sample_db_solar eq_refl) as T.
  cbv zeta in T.
  change (lookup_routing solar_id sample_db) with (@None (ObjectId * RoutingAssignment.t)) in T.
  exact (proj1 T).
Defined.

(** X11.  A routing whose body names another campaign than the request
    path is stored under the body's id: when no routing is stored for
    the path's campaign, [assign_routing] appends the record and still
    none is found for that campaign afterwards. *)
Theorem assign_routing_misfiled_is_lost (campaign_id : string)
    (routing : RoutingAssignment.t) (db : Database) camp :
  lookup_campaign campaign_id db = Some camp ->
  RoutingAssignment.campaign_id routing <> campaign_id ->
  lookup_routing campaign_id db = None ->
  let db' := snd (assign_routing campaign_id routing db) in
  (exists st, fst (assign_routing campaign_id routing db) = inr (true, st))
  /\ lookup_routing campaign_id db' = None
  /\ routingassignment_docs db'
     = routingassignment_docs db ++ [(next_oid db, routing)].
Proof.
  intros H C F db'. subst db'.
  rewrite (assign_routing_found campaign_id routing db camp H).
  unfold lookup_routing in *. unfold upsert_routing. rewrite F.
  cbn [fst snd bump_oid with_docs routingassignment routingassignment_docs].
  split; [eexists; reflexivity | split; [| reflexivity]].
  rewrite find_app_none by exact F. simpl.
  apply String.eqb_neq in C. now rewrite C.
Qed.

Lemma assign_routing_misfiled_is_lost_witness :
  lookup_routing solar_id (snd (assign_routing solar_id misfiled_routing sample_db))
  = None.
Proof.
  refine (proj1 (proj2 (assign_routing_misfiled_is_lost solar_id misfiled_routing
                          sample_db (6%N, solar) sample_db_solar _ _))).
  - discriminate.
  - reflexivity.
Defined.
(** ** The ledger is append-only *)

Ltac ledger_kept :=
  exists []; simpl; rewrite app_nil_r;
  split; [reflexivity | split; [lia | easy]].

Ltac ledger_grown :=
  eexists [_]; simpl; split; [reflexivity | split; [lia | easy]].

(** X12.  No request changes or removes a ledger entry: the ledger after
    a request is the ledger before it followed by at most one new entry,
    and only [wallet_topup] and [log_call] ever add one. *)
Theorem ledger_append_only (r : Request) (db : Database) :
  exists added,
    wallettransaction_docs (snd (serve r db)) = wallettransaction_docs db ++ added
    /\ (List.length added <= 1)%nat
    /\ (writes_ledger r = false -> added = []).
Proof.
  destruct r as [u | payload | c | cid payload | cid payload | cid routing | payload];
    unfold serve, bind.
  - rewrite create_user_eq. destruct (List.find _ _); ledger_kept.
  - destruct (flt (TopUp.amount payload) f50) eqn:G.
    + rewrite wallet_topup_rejected by exact G. ledger_kept.
    + destruct (lookup_user (TopUp.user_id payload) db) as [u|] eqn:H.
      * rewrite (wallet_topup_found payload db u G H). ledger_grown.
      * destruct (wallet_topup_unknown payload db H) as [e ->]. ledger_kept.
  - rewrite post_campaigns_eq. destruct (Campaign.valid c); [| ledger_kept].
    rewrite create_campaign_eq.
    destruct (oid_result _); [ledger_kept |].
    destruct (negb _); [ledger_kept |].
    destruct (flt _ f35); ledger_kept.
  - rewrite accept_campaign_eq.
    destruct (oid_result cid); [ledger_kept |].
    destruct (List.find _ (campaign_docs db)); [| ledger_kept].
    destruct (oid_result _); [ledger_kept |].
    destruct (negb _); [ledger_kept |].
    cbv zeta. unfold upsert_acceptance.
    destruct (List.find _ (selleracceptance_docs db)); ledger_kept.
  - rewrite set_transfer_number_eq.
    destruct (oid_result cid); [ledger_kept |].
    destruct (List.find _ (campaign_docs db)); ledger_kept.
  - destruct (lookup_campaign cid db) as [camp|] eqn:H.
    + rewrite (assign_routing_found cid routing db camp H). ledger_kept.
    + destruct (assign_routing_missing cid routing db H) as [e ->]. ledger_kept.
  - destruct (lookup_campaign (CallLogPayload.campaign_id payload) db)
      as [camp|] eqn:H.
    + rewrite (log_call_found payload db camp H).
      destruct (is_billable payload); [| ledger_kept].
      destruct (WalletTransaction.valid _); [| ledger_kept].
      destruct (flt _ f50); ledger_grown.
    + destruct (log_call_missing payload db H) as [e ->]. ledger_kept.
Qed.

Lemma ledger_append_only_witness :
  wallettransaction_docs
    (snd (serve (AssignRouting solar_id solar_routing) sample_db))
  = wallettransaction_docs sample_db.
Proof.
  destruct (ledger_append_only (AssignRouting solar_id solar_routing) sample_db)
    as (added & E & _ & K).
  rewrite E, (K eq_refl). apply app_nil_r.
Defined.

Lemma entries_serve (r : Request) (db : Database) :
  wf_db db ->
  Forall entry_ok (wallettransaction_docs db) ->
  Forall entry_ok (wallettransaction_docs (snd (serve r db))).
Proof.
  intros W N.
  destruct r as [u | payload | c | cid payload | cid payload | cid routing | payload];
    unfold serve, bind.
  - rewrite create_user_eq. destruct (List.find _ _); exact N.
  - destruct (flt (TopUp.amount payload) f50) eqn:G.
    + now rewrite wallet_topup_rejected.
    + destruct (lookup_user (TopUp.user_id payload) db) as [u|] eqn:H.
      * rewrite (wallet_topup_found payload db u G H). simpl.
        apply Forall_app. split; [exact N |]. constructor; [exact G | constructor].
      * destruct (wallet_topup_unknown payload db H) as [e ->]. exact N.
  - rewrite post_campaigns_eq. destruct (Campaign.valid c); [| exact N].
    rewrite create_campaign_eq.
    destruct (oid_result _); [exact N |].
    destruct (negb _); [exact N |].
    destruct (flt _ f35); exact N.
  - rewrite accept_campaign_eq.
    destruct (oid_result cid); [exact N |].
    destruct (List.find _ (campaign_docs db)); [| exact N].
    destruct (oid_result _); [exact N |].
    destruct (negb _); [exact N |].
    cbv zeta. unfold upsert_acceptance.
    destruct (List.find _ (selleracceptance_docs db)); exact N.
  - rewrite set_transfer_number_eq.
    destruct (oid_result cid); [exact N |].
    destruct (List.find _ (campaign_docs db)); exact N.
  - destruct (lookup_campaign cid db) as [camp|] eqn:H.
    + rewrite (assign_routing_found cid routing db camp H). exact N.
    + destruct (assign_routing_missing cid routing db H) as [e ->]. exact N.
  - destruct (lookup_campaign (CallLogPayload.campaign_id payload) db)
      as [camp|] eqn:H.
    + pose proof (wf_db_price _ _ _ W H) as P.
      rewrite (log_call_found payload db camp H).
      destruct (is_billable payload); [| exact N].
      destruct (WalletTransaction.valid _); [| exact N].
      destruct (flt _ f50); simpl;
        (apply Forall_app; split; [exact N |]; constructor; [exact P | constructor]).
    + destruct (log_call_missing payload db H) as [e ->]. exact N.
Qed.

(** A float that is not below a positive number is positive, unless it
    is not a number. *)
Lemma not_below_positive_cases (x : float) (m : positive) (e : Z) :
  flt x (S754_finite false m e) = false -> x = S754_nan \/ flt f0 x = true.
Proof.
  destruct x as [s|s| |s mx ex].
  - destruct s; discriminate.
  - destruct s; [discriminate | intros _; right; reflexivity].
  - intros _. left. reflexivity.
  - destruct s; [discriminate | intros _; right; reflexivity].
Qed.

(** X13.  Whatever requests are served from the empty database, no
    ledger entry has an amount that compares at most 0, and every amount
    that is a number is positive: no credit is below the minimum top-up
    of 50 and no debit below the minimum price of 35. *)
Theorem ledger_entries_bounded (rs : list Request) :
  Forall (fun t => fle (WalletTransaction.amount (snd t)) f0 = false
                   /\ (WalletTransaction.amount (snd t) = S754_nan
                       \/ flt f0 (WalletTransaction.amount (snd t)) = true)
                   /\ entry_ok t)
    (wallettransaction_docs (serve_all rs empty_db)).
Proof.
  assert (G : forall db, wf_db db -> Forall entry_ok (wallettransaction_docs db) ->
                Forall entry_ok (wallettransaction_docs (serve_all rs db))).
  { induction rs as [|r rs IH]; intros db W N; simpl; [exact N |].
    apply IH; [now apply wf_db_serve | now apply entries_serve]. }
  eapply Forall_impl; [| apply G; constructor].
  intros t E. split; [| split; [| exact E]]; unfold entry_ok in E;
    destruct (WalletTransaction.type (snd t));
    first [exact (not_below_positive _ _ _ E) | exact (not_below_positive_cases _ _ _ E)].
Qed.

(** ** Campaign documents over time *)

Lemma evolves_refl (d : ObjectId * Campaign.t) : evolves d d.
Proof. unfold evolves. repeat split; auto. Qed.

Lemma evolves_set_status (st : CampaignStatus) (d : ObjectId * Campaign.t) :
  written_status st -> evolves d (fst d, Campaign.set_status st (snd d)).
Proof. intros W. unfold evolves. simpl. repeat split; auto. Qed.

Lemma evolves_set_transfer_number (n : string) (d : ObjectId * Campaign.t) :
  evolves d (fst d, Campaign.set_status awaiting_admin
                      (Campaign.set_transfer_number n (snd d))).
Proof.
  unfold evolves, written_status. simpl. repeat split; eauto.
Qed.

Lemma Forall2_evolves_refl (c : collection Campaign.t) : Forall2 evolves c c.
Proof. induction c; constructor; [apply evolves_refl | assumption]. Qed.

Lemma Forall2_evolves_patch q (patch : Campaign.t -> Campaign.t)
    (c : collection Campaign.t) :
  (forall d, evolves d (fst d, patch (snd d))) ->
  Forall2 evolves c (patch_first q patch c).
Proof.
  intros P. induction c as [|d c IH]; simpl; [constructor |].
  destruct (q d); constructor; auto using evolves_refl, Forall2_evolves_refl.
Qed.

Ltac campaigns_kept :=
  eexists; exists []; simpl; rewrite app_nil_r;
  split; [reflexivity | split; [| lia]];
  first [ apply Forall2_evolves_refl
        | apply Forall2_evolves_patch; intros d;
          first [ apply evolves_set_transfer_number
                | apply evolves_set_status; unfold written_status;
                  try match goal with |- context [if ?b then _ else _] => destruct b end;
                  auto ] ].

(** X14.  Campaigns are never deleted and their terms never change: after
    any request every campaign document is still there, in the same
    place and under the same id, with the same buyer, vertical, price,
    cap, states and hours; its status is unchanged or one of
    [awaiting_admin], [active], [depleted]; at most one campaign is
    added, at the end. *)
Theorem campaigns_evolve (r : Request) (db : Database) :
  exists kept added,
    campaign_docs (snd (serve r db)) = kept ++ added
    /\ Forall2 evolves (campaign_docs db) kept
    /\ (List.length added <= 1)%nat.
Proof.
  destruct r as [u | payload | c | cid payload | cid payload | cid routing | payload];
    unfold serve, bind.
  - rewrite create_user_eq. destruct (List.find _ _); campaigns_kept.
  - destruct (flt (TopUp.amount payload) f50) eqn:G.
    + rewrite wallet_topup_rejected by exact G. campaigns_kept.
    + destruct (lookup_user (TopUp.user_id payload) db) as [u|] eqn:H.
      * rewrite (wallet_topup_found payload db u G H). campaigns_kept.
      * destruct (wallet_topup_unknown payload db H) as [e ->]. campaigns_kept.
  - rewrite post_campaigns_eq. destruct (Campaign.valid c); [| campaigns_kept].
    rewrite create_campaign_eq.
    destruct (oid_result _); [campaigns_kept |].
    destruct (negb _); [campaigns_kept |].
    destruct (flt _ f35); [campaigns_kept |].
    exists (campaign_docs db), [(next_oid db, c)]. simpl.
    split; [reflexivity | split; [apply Forall2_evolves_refl | lia]].
  - rewrite accept_campaign_eq.
    destruct (oid_result cid); [campaigns_kept |].
    destruct (List.find _ (campaign_docs db)); [| campaigns_kept].
    destruct (oid_result _); [campaigns_kept |].
    destruct (negb _); [campaigns_kept |].
    cbv zeta. unfold upsert_acceptance.
    destruct (List.find _ (selleracceptance_docs db)); campaigns_kept.
  - rewrite set_transfer_number_eq.
    destruct (oid_result cid); [campaigns_kept |].
    destruct (List.find _ (campaign_docs db)); campaigns_kept.
  - destruct (lookup_campaign cid db) as [camp|] eqn:H.
    + rewrite (assign_routing_found cid routing db camp H). campaigns_kept.
    + destruct (assign_routing_missing cid routing db H) as [e ->]. campaigns_kept.
  - destruct (lookup_campaign (CallLogPayload.campaign_id payload) db)
      as [camp|] eqn:H.
    + rewrite (log_call_found payload db camp H).
      destruct (is_billable payload); [| campaigns_kept].
      destruct (WalletTransaction.valid _); [| campaigns_kept].
      destruct (flt _ f50); campaigns_kept.
    + destruct (log_call_missing payload db H) as [e ->]. campaigns_kept.
Qed.

(** ** Users, call records and notifications are append-only *)

Ltac grown_or_kept := first [reflexivity | symmetry; apply app_nil_r].

Ltac appended :=
  eexists; eexists; eexists; simpl;
  split; [grown_or_kept | split; [grown_or_kept | split; [grown_or_kept |]]];
  simpl; split; [lia | split; [lia | split; easy]].

(** X15.  No request changes or removes a user, a call record or a
    notification: each of these collections after a request is the one
    before it followed by what was added; at most one user is added, and
    only by [create_user]; at most one call record, and only by
    [log_call]. *)
Theorem users_calls_notifications_append_only (r : Request) (db : Database) :
  exists us cs ns,
    user_docs (snd (serve r db)) = user_docs db ++ us
    /\ callrecord_docs (snd (serve r db)) = callrecord_docs db ++ cs
    /\ notification_docs (snd (serve r db)) = notification_docs db ++ ns
    /\ (List.length us <= 1)%nat
    /\ (List.length cs <= 1)%nat
    /\ (writes_users r = false -> us = [])
    /\ (writes_calls r = false -> cs = []).
Proof.
  destruct r as [u | payload | c | cid payload | cid payload | cid routing | payload];
    unfold serve, bind.
  - rewrite create_user_eq. destruct (List.find _ _); appended.
  - destruct (flt (TopUp.amount payload) f50) eqn:G.
    + rewrite wallet_topup_rejected by exact G. appended.
    + destruct (lookup_user (TopUp.user_id payload) db) as [u|] eqn:H.
      * rewrite (wallet_topup_found payload db u G H). appended.
      * destruct (wallet_topup_unknown payload db H) as [e ->]. appended.
  - rewrite post_campaigns_eq. destruct (Campaign.valid c); [| appended].
    rewrite create_campaign_eq.
    destruct (oid_result _); [appended |].
    destruct (negb _); [appended |].
    destruct (flt _ f35); appended.
  - rewrite accept_campaign_eq.
    destruct (oid_result cid); [appended |].
    destruct (List.find _ (campaign_docs db)); [| appended].
    destruct (oid_result _); [appended |].
    destruct (negb _); [appended |].
    cbv zeta. unfold upsert_acceptance.
    destruct (List.find _ (selleracceptance_docs db)); appended.
  - rewrite set_transfer_number_eq.
    destruct (oid_result cid); [appended |].
    destruct (List.find _ (campaign_docs db)); appended.
  - destruct (lookup_campaign cid db) as [camp|] eqn:H.
    + rewrite (assign_routing_found cid routing db camp H). appended.
    + destruct (assign_routing_missing cid routing db H) as [e ->]. appended.
  - destruct (lookup_campaign (CallLogPayload.campaign_id payload) db)
      as [camp|] eqn:H.
    + rewrite (log_call_found payload db camp H).
      destruct (is_billable payload); [| appended].
      destruct (WalletTransaction.valid _); [| appended].
      destruct (flt _ f50); appended.
    + destruct (log_call_missing payload db H) as [e ->]. appended.
Qed.

Lemma users_calls_notifications_append_only_witness :
  user_docs (snd (serve (LogCall long_call) sample_db)) = user_docs sample_db.
Proof.
  destruct (users_calls_notifications_append_only (LogCall long_call) sample_db)
    as (us & cs & ns & E & _ & _ & _ & _ & K & _).
  rewrite E, (K eq_refl). apply app_nil_r.
Defined.


(** ** Balances *)

(** X16.  A billable call costs the buyer exactly the campaign's price:
    one debit of [price_per_call] is appended to the buyer's ledger, so
    that the exact sum of the ledger drops by the price (a finite
    number), and the ledger of every other user is unchanged; a call
    that is not billable leaves every ledger as it was. *)
Theorem log_call_debits_price (payload : CallLogPayload.t) (db : Database) camp :
  wf_db db ->
  lookup_campaign (CallLogPayload.campaign_id payload) db = Some camp ->
  let buyer_id := Campaign.buyer_id (snd camp) in
  let price := Campaign.price_per_call (snd camp) in
  let db' := snd (log_call payload db) in
  (is_billable payload = true ->
     ledger buyer_id db'
     = ledger buyer_id db
       ++ [WalletTransaction.mk buyer_id debit price (Some "Billable call")
             (Some (CallLogPayload.campaign_id payload))
             (Some (str_oid (next_oid db)))]
     /\ (is_finite price = true ->
         ledger_sum buyer_id db' == ledger_sum buyer_id db - exact price)
     /\ forall other, other <> buyer_id -> ledger other db' = ledger other db)
  /\ (is_billable payload = false ->
      forall user_id, ledger user_id db' = ledger user_id db).
Proof.
  intros W H buyer_id price db'. subst db'.
  rewrite (log_call_found payload db camp H).
  rewrite (call_debit_valid payload db camp _ W H).
  split; intros B; rewrite B.
  - set (tx := call_debit payload camp (str_oid (next_oid db))).
    assert (E : forall d, wallettransaction_docs d
                          = wallettransaction_docs db ++ [(N.succ (next_oid db), tx)] ->
                ledger buyer_id d = ledger buyer_id db ++ [tx]
                /\ (is_finite price = true ->
                    ledger_sum buyer_id d == ledger_sum buyer_id db - exact price)
                /\ forall other, other <> buyer_id -> ledger other d = ledger other db).
    { intros d E. split; [| split].
      - exact (ledger_snoc_own buyer_id db d _ tx E eq_refl).
      - intros _. rewrite (ledger_sum_snoc buyer_id db d _ tx E eq_refl). simpl.
        fold price. lra.
      - intros other N. exact (ledger_snoc_other buyer_id other db d _ tx E eq_refl N). }
    destruct (flt _ f50); apply E; reflexivity.
  - intros user_id. reflexivity.
Qed.

Lemma log_call_debits_price_witness :
  ledger_sum ann_id (snd (log_call long_call sample_db)) == - 35.
Proof.
  destruct (log_call_debits_price long_call sample_db (6%N, solar)
              sample_db_wf sample_db_solar) as [B _].
  destruct (B eq_refl) as (_ & S & _). rewrite (S eq_refl). vm_compute. reflexivity.
Defined.

(** X18.  The wallet endpoint for balances takes any string, well-formed
    id or not, registered user or not: it never fails and never writes,
    it reports what [get_balance] computes from the entries that mention
    the string, and 0.0 when no entry does. *)
Theorem wallet_balance_any_string (user_id : string) (db : Database) :
  exists balance,
    wallet_balance user_id db = (inr (user_id, balance), db)
    /\ get_balance user_id db = (inr balance, db)
    /\ balance = round (running_total (ledger user_id db)) 2
    /\ (ledger user_id db = [] -> balance = f0).
Proof.
  exists (balance_of user_id db). split; [| split; [| split]].
  - unfold wallet_balance. unfold bind at 1.
    rewrite get_balance_balance_of. reflexivity.
  - apply get_balance_balance_of.
  - apply balance_of_eq.
  - intros L. rewrite balance_of_eq, L. reflexivity.
Qed.

Lemma wallet_balance_any_string_witness :
  wallet_balance "nobody" sample_db = (inr ("nobody", f0), sample_db).
Proof.
  destruct (wallet_balance_any_string "nobody" sample_db) as (b & W & _ & _ & Z).
  rewrite W, (Z eq_refl). reflexivity.
Defined.

(** ** Serialization *)

Section SerializeProperties.
Context {Any : Type}.
Variable py_str : Any -> string.
Variable py_bool : Any -> bool.



Lemma dict_get_set_same (k : string) (v : Value Any) (d : (Doc Any)) :
  dict_get k (dict_set k v d) = Some v.
Proof.
  unfold dict_get. induction d as [|p d IH]; simpl.
  - now rewrite String.eqb_refl.
  - destruct (fst p =? k) eqn:E; simpl; [now rewrite String.eqb_refl |].
    rewrite E. exact IH.
Qed.

Lemma dict_get_set_other (k k' : string) (v : Value Any) (d : (Doc Any)) :
  k' <> k -> dict_get k' (dict_set k v d) = dict_get k' d.
Proof.
  intros N. apply String.eqb_neq in N. unfold dict_get.
  induction d as [|p d IH]; simpl.
  - rewrite String.eqb_sym, N. reflexivity.
  - destruct (fst p =? k) eqn:E; simpl.
    + apply String.eqb_eq in E. rewrite E. rewrite String.eqb_sym, N. reflexivity.
    + destruct (fst p =? k'); [reflexivity | exact IH].
Qed.

Lemma dict_get_pop_other (k k' : string) (d : (Doc Any)) :
  k' <> k -> dict_get k' (dict_pop k d) = dict_get k' d.
Proof.
  intros N. apply String.eqb_neq in N. unfold dict_get.
  induction d as [|p d IH]; simpl; [reflexivity |].
  destruct (fst p =? k) eqn:E; simpl.
  - apply String.eqb_eq in E. rewrite E. rewrite String.eqb_sym, N. reflexivity.
  - destruct (fst p =? k'); [reflexivity | exact IH].
Qed.

Lemma dict_get_absent (k : string) (d : (Doc Any)) :
  ~ In k (keys d) -> dict_get k d = None.
Proof.
  intros N. unfold dict_get.
  destruct (List.find _ d) as [p|] eqn:F; [| reflexivity].
  apply find_some in F. destruct F as [I E]. apply String.eqb_eq in E.
  exfalso. apply N. rewrite <- E. unfold keys. now apply in_map.
Qed.

Lemma dict_get_pop_same (k : string) (d : (Doc Any)) :
  NoDup (keys d) -> dict_get k (dict_pop k d) = None.
Proof.
  unfold keys. induction d as [|p d IH]; simpl; intros N; [reflexivity |].
  inversion N as [|x l Nx Nd]; subst.
  destruct (fst p =? k) eqn:E.
  - apply String.eqb_eq in E. rewrite <- E. now apply dict_get_absent.
  - unfold dict_get. simpl. rewrite E. now apply IH.
Qed.

Lemma dict_get_stringify_field (d : (Doc Any)) (a k : string) :
  dict_get k (stringify_field d a)
  = if k =? a then stringified (dict_get k d) else dict_get k d.
Proof.
  unfold stringify_field. destruct (k =? a) eqn:E.
  - apply String.eqb_eq in E. subst a.
    destruct (dict_get k d) as [[i|s|x]|] eqn:G; simpl; try (now rewrite G).
    apply dict_get_set_same.
  - apply String.eqb_neq in E.
    destruct (dict_get a d) as [[i|s|x]|]; try reflexivity.
    now apply dict_get_set_other.
Qed.

Lemma stringified_idem (o : option (Value Any)) :
  stringified (stringified o) = stringified o.
Proof. destruct o as [[i|s|x]|]; reflexivity. Qed.

Lemma dict_get_stringify_fields (ks : list string) (d : (Doc Any)) (k : string) :
  dict_get k (fold_left stringify_field ks d)
  = if existsb (String.eqb k) ks then stringified (dict_get k d) else dict_get k d.
Proof.
  revert d. induction ks as [|a ks IH]; intros d; simpl; [reflexivity |].
  rewrite IH, dict_get_stringify_field.
  destruct (k =? a); simpl.
  - destruct (existsb _ ks); [apply stringified_idem | reflexivity].
  - reflexivity.
Qed.

Lemma stringify_fields_fixed (ks : list string) (d : (Doc Any)) :
  (forall k, In k ks -> is_oid (dict_get k d) = false) ->
  fold_left stringify_field ks d = d.
Proof.
  induction ks as [|a ks IH]; intros H; simpl; [reflexivity |].
  assert (E : stringify_field d a = d).
  { unfold stringify_field. pose proof (H a (or_introl eq_refl)) as Ha.
    destruct (dict_get a d) as [[i|s|x]|]; (reflexivity || discriminate). }
  rewrite E. apply IH. intros k I. apply H. now right.
Qed.

Lemma known_field_cases (k : string) :
  In k known_fields -> existsb (String.eqb k) known_fields = true
                       /\ k <> "_id" /\ k <> "id".
Proof.
  intros I. split.
  - apply existsb_exists. exists k. split; [exact I | apply String.eqb_refl].
  - simpl in I. repeat destruct I as [<- | I]; try contradiction;
      split; discriminate.
Qed.


Lemma dict_get_rename_id_other (d : (Doc Any)) (k : string) :
  k <> "_id" -> k <> "id" -> dict_get k (rename_id py_str py_bool d) = dict_get k d.
Proof.
  intros N1 N2. unfold rename_id.
  destruct (dict_get "_id" d) as [v|]; [| reflexivity].
  destruct (truthy py_bool v); [| reflexivity].
  rewrite dict_get_set_other by exact N2. now apply dict_get_pop_other.
Qed.

Lemma serialize_nonempty (d : (Doc Any)) :
  d <> [] ->
  serialize py_str py_bool d
  = fold_left stringify_field known_fields (rename_id py_str py_bool d).
Proof. destruct d; [contradiction | reflexivity]. Qed.

Lemma dict_get_nil (k : string) : dict_get k (@nil (string * Value Any)) = None.
Proof. reflexivity. Qed.

Lemma dict_get_serialize (d : (Doc Any)) (k : string) :
  dict_get k (serialize py_str py_bool d)
  = if existsb (String.eqb k) known_fields
    then stringified (dict_get k (rename_id py_str py_bool d))
    else dict_get k (rename_id py_str py_bool d).
Proof.
  destruct d as [|p d].
  - change (serialize py_str py_bool []) with (@nil (string * Value Any)).
    change (rename_id py_str py_bool []) with (@nil (string * Value Any)).
    rewrite dict_get_nil. destruct (existsb (String.eqb k) known_fields); reflexivity.
  - rewrite serialize_nonempty by discriminate. apply dict_get_stringify_fields.
Qed.

(** X21.  [serialize] turns the ids of a document into strings: an
    [ObjectId] under [_id] is removed and its string form stored under
    [id], and an [ObjectId] under one of the five known fields is
    replaced by its string form, while any other value there stays. *)
Theorem serialize_stringifies_ids (d : (Doc Any)) :
  NoDup (keys d) ->
  (forall i, dict_get "_id" d = Some (VObjectId i) ->
     dict_get "_id" (serialize py_str py_bool d) = None
     /\ dict_get "id" (serialize py_str py_bool d) = Some (VStr (str_oid i)))
  /\ (forall k, In k known_fields ->
        dict_get k (serialize py_str py_bool d) = stringified (dict_get k d)).
Proof.
  intros N. split.
  - intros i G. rewrite !dict_get_serialize. simpl existsb.
    unfold rename_id. rewrite G. simpl.
    rewrite dict_get_set_same.
    rewrite dict_get_set_other by discriminate.
    split; [now apply dict_get_pop_same | reflexivity].
  - intros k I. destruct (known_field_cases k I) as (E & N1 & N2).
    rewrite dict_get_serialize, E. f_equal.
    now apply dict_get_rename_id_other.
Qed.

Lemma serialize_no_oid_left (d : (Doc Any)) (k : string) :
  NoDup (keys d) ->
  (In k known_fields -> is_oid (dict_get k (serialize py_str py_bool d)) = false)
  /\ (forall v, dict_get "_id" (serialize py_str py_bool d) = Some v ->
        truthy py_bool v = false).
Proof.
  intros N. split.
  - intros I. destruct (known_field_cases k I) as (E & _ & _).
    rewrite dict_get_serialize, E.
    destruct (dict_get k _) as [[i|s|x]|]; reflexivity.
  - intros v. rewrite dict_get_serialize. simpl existsb.
    unfold rename_id. destruct (dict_get "_id" d) as [w|] eqn:G.
    + destruct (truthy py_bool w) eqn:T.
      * rewrite dict_get_set_other by discriminate.
        rewrite dict_get_pop_same by exact N. discriminate.
      * rewrite G. intros X. injection X as <-. exact T.
    + rewrite G. discriminate.
Qed.

(** X22.  [serialize] is idempotent: serializing a serialized document
    changes nothing. *)
Theorem serialize_idempotent (d : (Doc Any)) :
  NoDup (keys d) ->
  serialize py_str py_bool (serialize py_str py_bool d) = serialize py_str py_bool d.
Proof.
  intros N. set (r := serialize py_str py_bool d).
  destruct r as [|p r'] eqn:R; [reflexivity |].
  rewrite <- R. rewrite serialize_nonempty by (rewrite R; discriminate).
  assert (E : rename_id py_str py_bool r = r).
  { unfold rename_id. destruct (dict_get "_id" r) as [v|] eqn:G; [| reflexivity].
    pose proof (proj2 (serialize_no_oid_left d "_id" N) v G) as T.
    now rewrite T. }
  rewrite E. apply stringify_fields_fixed.
  intros k I. exact (proj1 (serialize_no_oid_left d k N) I).
Qed.

(** X23.  [serialize] leaves everything else alone: the empty document is
    returned as it is, a field other than [_id], [id] and the five known
    fields keeps its value, and without a truthy [_id] the fields [_id]
    and [id] keep theirs too. *)
Theorem serialize_keeps_other_fields (d : (Doc Any)) :
  serialize py_str py_bool [] = []
  /\ (forall k, k <> "_id" -> k <> "id" -> ~ In k known_fields ->
        dict_get k (serialize py_str py_bool d) = dict_get k d)
  /\ ((forall v, dict_get "_id" d = Some v -> truthy py_bool v = false) ->
      dict_get "_id" (serialize py_str py_bool d) = dict_get "_id" d
      /\ dict_get "id" (serialize py_str py_bool d) = dict_get "id" d).
Proof.
  split; [reflexivity | split].
  - intros k N1 N2 NK. rewrite dict_get_serialize.
    destruct (existsb _ known_fields) eqn:E.
    + exfalso. apply NK. apply existsb_exists in E. destruct E as (x & I & X).
      apply String.eqb_eq in X. now subst x.
    + now apply dict_get_rename_id_other.
  - intros F. rewrite !dict_get_serialize. simpl existsb.
    assert (E : rename_id py_str py_bool d = d).
    { unfold rename_id. destruct (dict_get "_id" d) as [v|] eqn:G; [| reflexivity].
      now rewrite (F v eq_refl). }
    rewrite E. split; reflexivity.
Qed.

End SerializeProperties.

Lemma sample_doc_keys : NoDup (keys sample_doc).
Proof.
  unfold keys. simpl. repeat constructor; simpl; intuition discriminate.
Qed.

Lemma serialize_stringifies_ids_witness :
  dict_get "id" (serialize Z_str Z_bool sample_doc) = Some (VStr solar_id).
Proof.
  exact (proj2 (proj1 (serialize_stringifies_ids Z_str Z_bool sample_doc
                         sample_doc_keys) 6%N eq_refl)).
Defined.

Lemma serialize_idempotent_witness :
  serialize Z_str Z_bool (serialize Z_str Z_bool sample_doc)
  = serialize Z_str Z_bool sample_doc.
Proof. exact (serialize_idempotent Z_str Z_bool sample_doc sample_doc_keys). Defined.

Lemma serialize_keeps_other_fields_witness :
  dict_get "daily_cap" (serialize Z_str Z_bool sample_doc) = Some (VAny 10%Z).
Proof.
  refine (proj1 (proj2 (serialize_keeps_other_fields Z_str Z_bool sample_doc))
            "daily_cap" _ _ _).
  - discriminate.
  - discriminate.
  - simpl. intuition discriminate.
Defined.
